(** * albec2: the cache-backed EC2 resolution layer

    A shallow embedding of [internal/aws/albec2/ec2.go] and the properties
    of its resolvers: the VPC locator, the subnet and security-group
    resolvers, availability-zone deduplication, the node health check and
    the retry policy used for security-group deletion.

    Conventions of the embedding.
    - A Go [*string] that the code dereferences without a nil test is a
      [string]; a pointer the code does test ([Instance.VpcId]) and the
      pointer half of a [(value, error)] result are [option]s.
    - A Go [(value, error)] result is a pair whose second component is an
      [option error]; a nil slice is the empty list.
    - Every remote call is answered by an oracle of the environment [Env] and
      is recorded, in order, in the [calls] log of the state.
    - A failed type assertion or an index out of range is the outcome
      [Panic]. *)

From stdpp Require Import gmap strings list sorting.
From Stdlib Require Import ZArith Ascii.

(** ** Errors *)

(** An error handed back by a collaborator: the SDK's [awserr.Error], which
    carries a machine-readable code, or any other Go error. *)
Inductive ExtError : Type :=
  | AwsError (code message : string)
  | PlainError (message : string).

(** ** The AWS data the resolvers read (package [ec2]) *)

Module ec2.

Record Tag : Type := { Key : string; Value : string }.

Record Filter : Type := { Name : string; Values : list string }.

Record Subnet : Type :=
  { SubnetId : string; AvailabilityZone : string; Tags : list Tag }.

(** [GroupTags] is the field [Tags] of [ec2.SecurityGroup]. *)
Record SecurityGroup : Type :=
  { GroupId : string; GroupTags : list Tag }.

Record Vpc : Type := { VpcId : string }.

(** [InstanceVpcId] is the field [VpcId] of [ec2.Instance], a pointer the
    code tests against nil. *)
Record Instance : Type :=
  { InstanceId : string; InstanceVpcId : option string }.

Record Reservation : Type := { Instances : list Instance }.

Record DescribeInstancesOutput : Type :=
  { Reservations : list Reservation }.

(** [StatusInstanceId] and [StateCode] are [InstanceStatus.InstanceId] and
    [InstanceStatus.InstanceState.Code]. *)
Record InstanceStatus : Type :=
  { StatusInstanceId : string; StateCode : Z }.

End ec2.

(** The argument list of a [fmt.Errorf] call. [AFilters] stands for a filter
    list printed with [%v] (directly or through [log.Prettify]), [AStrs] for
    a prettified string slice, [AErr] for an error printed with [%v] or
    through [err.Error()]. *)
Inductive Arg : Type :=
  | AInt (n : Z)
  | AStr (s : string)
  | AStrs (l : list string)
  | AFilters (fs : list ec2.Filter)
  | AErr (e : ExtError).

(** A Go [error] value as this package produces or forwards it: an error of
    a collaborator passed on as it is, or [fmt.Errorf format args...]. *)
Inductive error : Type :=
  | External (e : ExtError)
  | Errorf (format : string) (args : list Arg).

(** ** Constants of the package *)

Definition tagNameCluster : string := "kubernetes.io/cluster".
Definition tagNameSubnetInternalELB : string := "kubernetes.io/role/internal-elb".
Definition tagNameSubnetPublicELB : string := "kubernetes.io/role/elb".

(** [time.Duration] counts nanoseconds. *)
Module time.
Definition Duration : Type := Z.
Definition Minute : Duration := (60 * 1000000000)%Z.
End time.

Definition GetSecurityGroupsCacheTTL : time.Duration := (time.Minute * 60)%Z.
Definition GetSubnetsCacheTTL : time.Duration := (time.Minute * 60)%Z.
Definition IsNodeHealthyCacheTTL : time.Duration := (time.Minute * 5)%Z.

(** The scheme constants of the SDK package [elbv2], which the source only
    names. *)
Module elbv2.
(** Modelled from the spec: the value of
    [elbv2.LoadBalancerSchemeEnumInternal]. *)
Definition LoadBalancerSchemeEnumInternal : string := "internal".
(** Modelled from the spec: the value of
    [elbv2.LoadBalancerSchemeEnumInternetFacing]. *)
Definition LoadBalancerSchemeEnumInternetFacing : string := "internet-facing".
End elbv2.

(** ** The TTL cache *)

(** What a cache item holds: the Go [interface{}] with the four dynamic
    types this package stores. *)
Inductive CacheValue : Type :=
  | VString (s : string)
  | VSubnet (s : ec2.Subnet)
  | VVpc (v : ec2.Vpc)
  | VBool (b : bool).

Module albcache.

(** Package [albcache] is not among the sources; it is modelled from the
    specification of the TTL cache: a store from a namespace and a key to a
    value, with an expiry per entry. *)

(** Modelled from the spec: the cache entry [(namespace, key, value,
    expiry)]; namespace and key index the store, the item holds the rest.
    [Value] is its method [Value()]. *)
Record Item : Type := { Value : CacheValue; expires : Z }.

(** Modelled from the spec: [albcache.Get], the item under the namespace
    and key, a miss once its expiry has been reached, whether or not the
    entry was ever removed. *)
Definition Get (c : gmap (string * string) Item) (now : Z)
    (cacheName key : string) : option Item :=
  match c !! (cacheName, key) with
  | Some item => if (now <? expires item)%Z then Some item else None
  | None => None
  end.

(** Modelled from the spec: [albcache.Set], which overwrites the entry
    wholesale, with the expiry [ttl] from now. *)
Definition Set_ (c : gmap (string * string) Item) (now : Z)
    (cacheName key : string) (v : CacheValue) (ttl : time.Duration)
    : gmap (string * string) Item :=
  <[(cacheName, key) := {| Value := v; expires := (now + ttl)%Z |}]> c.

End albcache.

(** ** The retry interface of the SDK (package [request]) *)

Module request.

(** The part of [request.Request] a retry policy looks at. *)
Record Request : Type := { Error : option ExtError; RetryCount : Z }.

(** The interface [request.Retryer]: a value of it is the record of its
    three methods. *)
Record Retryer : Type :=
  { RetryRules : Request -> time.Duration;
    ShouldRetry : Request -> bool;
    MaxRetries : Z }.

End request.

(** ** Remote calls, the environment and the state *)

(** One entry of the call log per request sent to a collaborator. *)
Inductive Call : Type :=
  | CDescribeSubnets (filters : list ec2.Filter)
  | CDescribeSecurityGroups (filters : list ec2.Filter)
  | CDescribeInstances (instanceIds : list string)
  | CDescribeVpcs (vpcIds : list string)
  | CDescribeInstanceStatus (instanceIds : list string)
  | CDeleteSecurityGroup (groupId : string)
  | CGetInstanceIdentityDocument
  | CGetClusterResources.

(** The identity document of the metadata service; only the instance id is
    read. *)
Record InstanceIdentityDocument : Type := { InstanceID : string }.

(** The cluster resources of the tag index ([albrgt]): [Subnets] maps a
    subnet ARN to its tags. It is a Go map, ranged over in an order the
    runtime picks; the list gives the pairs in the order of that range. *)
Record Resources : Type := { Subnets : list (string * list ec2.Tag) }.

(** The environment: the process environment variable, one oracle per
    remote operation, and the retry policy the EC2 client gives its
    requests. An oracle sees the calls made so far, so that the same request
    may be answered differently over time. *)
Record Env : Type :=
  { AWS_VPC_ID : string;
    describeSubnets :
      list Call -> list ec2.Filter -> ExtError + list ec2.Subnet;
    describeSecurityGroups :
      list Call -> list ec2.Filter -> ExtError + list ec2.SecurityGroup;
    describeInstances :
      list Call -> list string -> ExtError + ec2.DescribeInstancesOutput;
    describeVpcs : list Call -> list string -> ExtError + list ec2.Vpc;
    describeInstanceStatus :
      list Call -> list string -> ExtError + list ec2.InstanceStatus;
    deleteSecurityGroup : list Call -> string -> option ExtError;
    getInstanceIdentityDocument :
      list Call -> ExtError + InstanceIdentityDocument;
    getClusterResources : list Call -> ExtError + Resources;
    defaultRetryer : request.Retryer }.

(** The mutable state: the process-wide cache, the clock the cache reads,
    and the log of remote calls. *)
Record State : Type :=
  { cache : gmap (string * string) albcache.Item;
    now : Z;
    calls : list Call }.

(** ** The monad of the embedding: state plus panic *)

Inductive Res (A : Type) : Type :=
  | Done (a : A) (s : State)
  | Panic (why : string).
Arguments Done {A} a s.
Arguments Panic {A} why.

Definition M (A : Type) : Type := State -> Res A.

Definition ret {A} (a : A) : M A := fun s => Done a s.

Definition bind {A B} (m : M A) (k : A -> M B) : M B :=
  fun s => match m s with
           | Done a s' => k a s'
           | Panic why => Panic why
           end.

Notation "'let!' x ':=' c 'in' k" := (bind c (fun x => k))
  (at level 10, x pattern, c at level 100, k at level 200).
Notation "c ';;;' k" := (bind c (fun _ => k))
  (at level 100, k at level 200, right associativity).

Definition panic {A} (why : string) : M A := fun _ => Panic why.

(** [for _, x := range l { acc = body(acc, x) }]. *)
Fixpoint forRange {A B} (body : B -> A -> M B) (l : list A) (acc : B) : M B :=
  match l with
  | [] => ret acc
  | x :: l' => let! acc' := body acc x in forRange body l' acc'
  end.

Definition cacheGet (cacheName key : string) : M (option albcache.Item) :=
  fun s => Done (albcache.Get (cache s) (now s) cacheName key) s.

Definition cacheSet (cacheName key : string) (v : CacheValue)
    (ttl : time.Duration) : M unit :=
  fun s => Done tt {| cache := albcache.Set_ (cache s) (now s) cacheName key v ttl;
                      now := now s;
                      calls := calls s |}.

(** A remote call: the oracle answers from the log so far, and the request
    is appended to the log. *)
Definition remote {A} (c : Call) (answer : list Call -> A) : M A :=
  fun s => Done (answer (calls s))
                {| cache := cache s; now := now s; calls := calls s ++ [c] |}.

(** The type assertions [item.Value().(T)]; a wrong dynamic type panics. *)
Definition assertString (v : CacheValue) : M string :=
  match v with
  | VString s => ret s
  | _ => panic "interface conversion: interface {} is not *string"
  end.

Definition assertSubnet (v : CacheValue) : M ec2.Subnet :=
  match v with
  | VSubnet s => ret s
  | _ => panic "interface conversion: interface {} is not *ec2.Subnet"
  end.

Definition assertVpc (v : CacheValue) : M ec2.Vpc :=
  match v with
  | VVpc x => ret x
  | _ => panic "interface conversion: interface {} is not *ec2.Vpc"
  end.

Definition assertBool (v : CacheValue) : M bool :=
  match v with
  | VBool b => ret b
  | _ => panic "interface conversion: interface {} is not bool"
  end.

(** ** instanceVPCIsValid and the VPC locator *)

(** [instanceVPCIsValid]; [None] is the nil error. The second test prints
    [len(o.Reservations)], as the source does. *)
Definition instanceVPCIsValid (o : ec2.DescribeInstancesOutput) : option error :=
  if (Z.of_nat (length (ec2.Reservations o)) <? 1)%Z then
    Some (Errorf
      "When looking up VPC ID could not identify instance. Found %d reservations in AWS call. Should have found atleast 1."
      [AInt (Z.of_nat (length (ec2.Reservations o)))])
  else
    match ec2.Reservations o with
    | [] => None
    | r0 :: _ =>
      if (Z.of_nat (length (ec2.Instances r0)) <? 1)%Z then
        Some (Errorf
          "When looking up VPC ID could not identify instance. Found %d instances in AWS call. Should have found atleast 1."
          [AInt (Z.of_nat (length (ec2.Reservations o)))])
      else
        match ec2.Instances r0 with
        | [] => None
        | i0 :: _ =>
          match ec2.InstanceVpcId i0 with
          | None =>
            Some (Errorf
              "When looking up VPC ID could not instance returned had a nil value for VPC." [])
          | Some v =>
            if String.eqb v "" then
              Some (Errorf
                "When looking up VPC ID could not instance returned had an empty value for VPC." [])
            else None
          end
        end
    end.

(** [o.Reservations[0].Instances[0].VpcId]; an index out of range or a nil
    pointer is [None]. *)
Definition firstInstanceVpcId (o : ec2.DescribeInstancesOutput) : option string :=
  match ec2.Reservations o with
  | r0 :: _ =>
    match ec2.Instances r0 with
    | i0 :: _ => ec2.InstanceVpcId i0
    | [] => None
    end
  | [] => None
  end.

(** ** Helpers of other packages *)

(** Modelled from the spec: [util.EC2Tags.Get] (package [pkg/util/types]) is
    not among the sources; it reads the tag with the given key, and [None]
    is its [ok = false]. *)
Fixpoint EC2Tags_Get (tags : list ec2.Tag) (key : string) : option string :=
  match tags with
  | [] => None
  | tag :: rest =>
    if String.eqb (ec2.Key tag) key then Some (ec2.Value tag) else EC2Tags_Get rest key
  end.

(** Modelled from the spec: [sort.Sort] over [util.AWSStringSlice] (package
    [pkg/util/types], not among the sources) sorts the identifiers
    lexicographically. *)
Definition sortStrings (l : list string) : list string :=
  merge_sort String.le l.

(** [strings.Split(s, "/")]: the pieces of [s] between slashes; never
    empty. *)
Fixpoint splitSlash (s : string) : list string :=
  match s with
  | EmptyString => [EmptyString]
  | String c s' =>
    if Ascii.eqb c "/"%char then EmptyString :: splitSlash s'
    else match splitSlash s' with
         | piece :: rest => String c piece :: rest
         | [] => [String c EmptyString]
         end
  end.

(** [p[len(p)-1]] for [p := strings.Split(arn, "/")]. *)
Definition lastPiece (arn : string) : string :=
  List.last (splitSlash arn) EmptyString.

(** ** subnetIsUsable *)

Fixpoint subnetIsUsable (new : ec2.Subnet) (existing : list ec2.Subnet) : bool :=
  match existing with
  | [] => true
  | subnet :: rest =>
    if String.eqb (ec2.AvailabilityZone new) (ec2.AvailabilityZone subnet) then false
    else subnetIsUsable new rest
  end.

(** The format of the error of [ClusterSubnets] at lines 443 to 448. *)
Definition unresolvedFormat : string :=
  "Retrieval of subnets failed to resolve 2 qualified subnets. Subnets must contain the %s/<cluster name> tag with a value of shared or owned and the %s tag signifying it should be used for ALBs Additionally, there must be at least 2 subnets with unique availability zones as required by ALBs. Either tag subnets to meet this requirement or use the subnets annotation on the ingress resource to explicitly call out what subnets to use for ALB creation. The subnets that did resolve were %v.".

(** The scheme test that opens [ClusterSubnets]: the role tag key of a
    scheme, [None] for a scheme the function refuses. *)
Definition schemeTagKey (scheme : string) : option string :=
  if String.eqb scheme elbv2.LoadBalancerSchemeEnumInternal then
    Some tagNameSubnetInternalELB
  else if String.eqb scheme elbv2.LoadBalancerSchemeEnumInternetFacing then
    Some tagNameSubnetPublicELB
  else None.

(** ** deleteSecurityGroupRetryer *)

(** The struct embeds the wrapped [request.Retryer]. *)
Record deleteSecurityGroupRetryer : Type := { Retryer : request.Retryer }.

(** The type assertion [req.Error.(awserr.Error)] holds for [AwsError]
    only. *)
Definition deleteSecurityGroupRetryer_ShouldRetry
    (r : deleteSecurityGroupRetryer) (req : request.Request) : bool :=
  match request.Error req with
  | Some (AwsError code _) =>
    if String.eqb code "DependencyViolation" then true
    else request.ShouldRetry (Retryer r) req
  | _ => request.ShouldRetry (Retryer r) req
  end.

Definition deleteSecurityGroupRetryer_MaxRetries
    (r : deleteSecurityGroupRetryer) : Z := 20.

(** The struct as a [request.Retryer]: its own two methods, and
    [RetryRules] promoted from the embedded field. *)
Definition asRetryer (r : deleteSecurityGroupRetryer) : request.Retryer :=
  {| request.RetryRules := request.RetryRules (Retryer r);
     request.ShouldRetry := deleteSecurityGroupRetryer_ShouldRetry r;
     request.MaxRetries := deleteSecurityGroupRetryer_MaxRetries r |}.

(** The request loop of aws-sdk-go, the consumer of a [request.Retryer].
    It is code of the SDK, not of this repository, written here after
    [Request.Send], [Request.WillRetry] and the handler [AfterRetryHandler]:
    after a failed attempt the request is sent again when [ShouldRetry] says
    so and [RetryCount < MaxRetries()], and [RetryCount] is then
    incremented. [fuel] bounds the recursion; [Send] starts it with
    [MaxRetries()], which is never used up (see [sendLoop_fuel]). The result
    is the error of the last attempt, [None] on success. *)
Fixpoint sendLoop (r : request.Retryer) (attempt : M (option ExtError))
    (fuel : nat) (retryCount : Z) : M (option ExtError) :=
  let! e := attempt in
  match e with
  | None => ret None
  | Some err =>
    let req := {| request.Error := Some err; request.RetryCount := retryCount |} in
    if request.ShouldRetry r req && (retryCount <? request.MaxRetries r)%Z then
      match fuel with
      | S fuel' => sendLoop r attempt fuel' (retryCount + 1)%Z
      | O => ret (Some err)
      end
    else ret (Some err)
  end.

Definition Send (r : request.Retryer) (attempt : M (option ExtError))
    : M (option ExtError) :=
  sendLoop r attempt (Z.to_nat (request.MaxRetries r)) 0%Z.

(** ** The resolvers *)

Section Resolvers.

Variable E : Env.

(** The operations of the EC2 client, of the metadata client and of the tag
    index that the resolvers call. *)
Definition DescribeSubnets (filters : list ec2.Filter) :=
  remote (CDescribeSubnets filters) (fun log => describeSubnets E log filters).

Definition DescribeSecurityGroups (filters : list ec2.Filter) :=
  remote (CDescribeSecurityGroups filters)
         (fun log => describeSecurityGroups E log filters).

Definition DescribeInstances (ids : list string) :=
  remote (CDescribeInstances ids) (fun log => describeInstances E log ids).

Definition DescribeVpcs (ids : list string) :=
  remote (CDescribeVpcs ids) (fun log => describeVpcs E log ids).

Definition DescribeInstanceStatus (ids : list string) :=
  remote (CDescribeInstanceStatus ids)
         (fun log => describeInstanceStatus E log ids).

Definition GetInstanceIdentityDocument :=
  remote CGetInstanceIdentityDocument (getInstanceIdentityDocument E).

Definition GetClusterResources :=
  remote CGetClusterResources (getClusterResources E).

(** [EC2.GetVPCID]. After [instanceVPCIsValid] has accepted the
    response the VPC id is present, so the [None] branch of the last match
    (a nil pointer stored and returned) is never taken; see
    [instanceVPCIsValid_ok]. *)
Definition GetVPCID : M (option string * option error) :=
  if negb (String.eqb (AWS_VPC_ID E) "") then ret (Some (AWS_VPC_ID E), None)
  else
    let cacheName := "EC2.GetVPCID" in
    let! item := cacheGet cacheName "" in
    match item with
    | Some it =>
      let! vpc := assertString (albcache.Value it) in
      ret (Some vpc, None)
    | None =>
      let! r := GetInstanceIdentityDocument in
      match r with
      | inl err => ret (None, Some (External err))
      | inr identityDoc =>
        let! r := DescribeInstances [InstanceID identityDoc] in
        match r with
        | inl err => ret (None, Some (External err))
        | inr descInstancesOutput =>
          match instanceVPCIsValid descInstancesOutput with
          | Some err => ret (None, Some err)
          | None =>
            match firstInstanceVpcId descInstancesOutput with
            | Some vpc =>
              cacheSet cacheName "" (VString vpc) (time.Minute * 60)%Z ;;;
              ret (Some vpc, None)
            | None => panic "nil pointer dereference"
            end
          end
        end
      end
    end.

(** [EC2.GetVPC]. *)
Definition GetVPC (id : string) : M (option ec2.Vpc * option error) :=
  let cacheName := "EC2.GetVPCID" in
  let! item := cacheGet cacheName id in
  match item with
  | Some it =>
    let! vpc := assertVpc (albcache.Value it) in
    ret (Some vpc, None)
  | None =>
    let! r := DescribeVpcs [id] in
    match r with
    | inl err => ret (None, Some (External err))
    | inr vpcs =>
      if negb (Z.of_nat (length vpcs) =? 1)%Z then
        ret (None, Some (Errorf "Invalid amount of VPCs %d returned for %s"
                           [AInt (Z.of_nat (length vpcs)); AStr id]))
      else
        match vpcs with
        | v0 :: _ =>
          cacheSet cacheName id (VVpc v0) (time.Minute * 60)%Z ;;;
          ret (Some v0, None)
        | [] => panic "index out of range"
        end
    end
  end.

(** The first loop of [GetSubnets] and of [GetSecurityGroups]: the cached
    values of the names that hit, and the names that miss. *)
Definition lookupNames (cacheName : string) (names : list string)
    : M (list string * list string) :=
  forRange
    (fun '(found, queryNames) n =>
       let! item := cacheGet cacheName n in
       match item with
       | Some it =>
         let! v := assertString (albcache.Value it) in
         ret (found ++ [v], queryNames)
       | None => ret (found, queryNames ++ [n])
       end)
    names ([], []).

(** [EC2.GetSubnets]. The name filter of the query is [names], as in the
    source. [GetVPCID] never returns a nil id with a nil error (see
    [GetVPCID_id_or_error]), so the [None] branch for [vpcID] is never
    taken. *)
Definition GetSubnets (names : list string) : M (list string * option error) :=
  let! r := GetVPCID in
  match r with
  | (_, Some err) => ret ([], Some err)
  | (None, None) => panic "nil pointer dereference"
  | (Some vpcID, None) =>
    let cacheName := "EC2.GetSubnets" in
    let! (subnets, queryNames) := lookupNames cacheName names in
    if (Z.of_nat (length queryNames) =? 0)%Z then ret (subnets, None)
    else
      let in_ := [ {| ec2.Name := "tag:Name"; ec2.Values := names |};
                   {| ec2.Name := "vpc-id"; ec2.Values := [vpcID] |} ] in
      let! r := DescribeSubnets in_ in
      match r with
      | inl err =>
        ret (subnets,
             Some (Errorf "Unable to fetch subnets %v: %v" [AFilters in_; AErr err]))
      | inr describeSubnetsOutput =>
        let! subnets :=
          forRange
            (fun subnets subnet =>
               match EC2Tags_Get (ec2.Tags subnet) "Name" with
               | Some value =>
                 cacheSet cacheName value (VString (ec2.SubnetId subnet))
                          GetSubnetsCacheTTL ;;;
                 ret (subnets ++ [ec2.SubnetId subnet])
               | None => ret subnets
               end)
            describeSubnetsOutput subnets in
        ret (subnets, None)
      end
  end.

(** [EC2.GetSecurityGroups]. The name filter of the query is
    [queryNames]. [name, _ := ...Get("Name")] is the empty string when the
    tag is absent. *)
Definition GetSecurityGroups (names : list string)
    : M (list string * option error) :=
  let! r := GetVPCID in
  match r with
  | (_, Some err) => ret ([], Some err)
  | (None, None) => panic "nil pointer dereference"
  | (Some vpcID, None) =>
    let cacheName := "EC2.GetSecurityGroups" in
    let! (sgs, queryNames) := lookupNames cacheName names in
    if (Z.of_nat (length queryNames) =? 0)%Z then ret (sgs, None)
    else
      let in_ := [ {| ec2.Name := "tag:Name"; ec2.Values := queryNames |};
                   {| ec2.Name := "vpc-id"; ec2.Values := [vpcID] |} ] in
      let! r := DescribeSecurityGroups in_ in
      match r with
      | inl err =>
        ret (sgs,
             Some (Errorf "Unable to fetch security groups %v: %v"
                     [AFilters in_; AErr err]))
      | inr describeSecurityGroupsOutput =>
        let! sgs :=
          forRange
            (fun sgs sg =>
               let name := default "" (EC2Tags_Get (ec2.GroupTags sg) "Name") in
               cacheSet cacheName name (VString (ec2.GroupId sg))
                        GetSecurityGroupsCacheTTL ;;;
               ret (sgs ++ [ec2.GroupId sg]))
            describeSecurityGroupsOutput sgs in
        ret (sgs, None)
      end
  end.

(** [EC2.DeleteSecurityGroupByID]: the request option wraps the retryer of
    the request, and the request is sent. *)
Definition DeleteSecurityGroupByID (sgID : string) : M (option error) :=
  let retryer := asRetryer {| Retryer := defaultRetryer E |} in
  let! e := Send retryer
              (remote (CDeleteSecurityGroup sgID)
                      (fun log => deleteSecurityGroup E log sgID)) in
  match e with
  | Some err => ret (Some (External err))
  | None => ret None
  end.

(** The body of the inner loop of [ClusterSubnets] (lines 399 to 413) for
    one tag of the subnet [arn]; the accumulator is
    [(useableSubnets, out, filterValues)]. *)
Definition scanTag (cacheName key arn : string)
    (acc : list ec2.Subnet * list string * list string) (tag : ec2.Tag)
    : M (list ec2.Subnet * list string * list string) :=
  let '(useableSubnets, out, filterValues) := acc in
  if String.eqb (ec2.Key tag) key then
    let subnetID := lastPiece arn in
    let! item := cacheGet cacheName subnetID in
    match item with
    | Some it =>
      let! cached := assertSubnet (albcache.Value it) in
      if subnetIsUsable cached useableSubnets then
        ret (useableSubnets ++ [cached], out ++ [ec2.SubnetId cached],
             filterValues)
      else ret acc
    | None => ret (useableSubnets, out, filterValues ++ [subnetID])
    end
  else ret acc.

(** The loop over [resources.Subnets] (lines 398 to 414). *)
Definition scanResources (cacheName key : string)
    (subnets : list (string * list ec2.Tag))
    : M (list ec2.Subnet * list string * list string) :=
  forRange
    (fun acc '(arn, subnetTags) =>
       forRange (scanTag cacheName key arn) subnetTags acc)
    subnets ([], [], []).

(** The body of the loop over [o.Subnets] (lines 435 to 439); the
    accumulator is [(useableSubnets, out)]. *)
Definition admitOne (cacheName : string)
    (acc : list ec2.Subnet * list string) (subnet : ec2.Subnet)
    : M (list ec2.Subnet * list string) :=
  let '(useableSubnets, out) := acc in
  if subnetIsUsable subnet useableSubnets then
    cacheSet cacheName (ec2.SubnetId subnet) (VSubnet subnet)
             (time.Minute * 60)%Z ;;;
    ret (useableSubnets ++ [subnet], out ++ [ec2.SubnetId subnet])
  else ret (useableSubnets, out).

(** The loop over [o.Subnets] (lines 434 to 440). *)
Definition admitDescribed (cacheName : string) (described : list ec2.Subnet)
    (acc : list ec2.Subnet * list string)
    : M (list ec2.Subnet * list string) :=
  forRange (admitOne cacheName) described acc.

(** [ClusterSubnets] from line 392 on, once the scheme has given [key]. *)
Definition clusterSubnetsFor (key : string) : M (list string * option error) :=
  let cacheName := "ClusterSubnets" in
  let! r := GetClusterResources in
  match r with
  | inl err =>
    ret ([], Some (Errorf "Failed to get AWS tags. Error: %s" [AErr err]))
  | inr resources =>
    let! (useableSubnets, out, filterValues) :=
      scanResources cacheName key (Subnets resources) in
    if (Z.of_nat (length filterValues) =? 0)%Z then
      ret (sortStrings out, None)
    else
      let filters := [ {| ec2.Name := "subnet-id"; ec2.Values := filterValues |} ] in
      let! r := DescribeSubnets filters in
      match r with
      | inl err =>
        ret ([], Some (Errorf "Unable to fetch subnets %v: %v"
                         [AFilters filters; AErr err]))
      | inr o =>
        let! (useableSubnets, out) :=
          admitDescribed cacheName o (useableSubnets, out) in
        if (Z.of_nat (length out) <? 2)%Z then
          ret ([], Some (Errorf unresolvedFormat
            [AStr tagNameCluster; AStr tagNameSubnetInternalELB; AStrs out]))
        else ret (sortStrings out, None)
      end
  end.

(** [ClusterSubnets]. *)
Definition ClusterSubnets (scheme : string) : M (list string * option error) :=
  match schemeTagKey scheme with
  | Some key => clusterSubnetsFor key
  | None => ret ([], Some (Errorf "Invalid scheme [%s]" [AStr scheme]))
  end.

(** The loop of [IsNodeHealthy] over [o.InstanceStatuses], with its two
    returns from inside the loop and the one after it. *)
Fixpoint scanStatuses (cacheName instanceid : string)
    (statuses : list ec2.InstanceStatus) : M (bool * option error) :=
  match statuses with
  | [] => ret (false, None)
  | instanceStatus :: rest =>
    if negb (String.eqb (ec2.StatusInstanceId instanceStatus) instanceid) then
      scanStatuses cacheName instanceid rest
    else if (ec2.StateCode instanceStatus =? 16)%Z then
      cacheSet cacheName instanceid (VBool true) IsNodeHealthyCacheTTL ;;;
      ret (true, None)
    else
      cacheSet cacheName instanceid (VBool false) IsNodeHealthyCacheTTL ;;;
      ret (false, None)
  end.

(** [EC2.IsNodeHealthy]. *)
Definition IsNodeHealthy (instanceid : string) : M (bool * option error) :=
  let cacheName := "ec2.IsNodeHealthy" in
  let! item := cacheGet cacheName instanceid in
  match item with
  | Some it =>
    let! b := assertBool (albcache.Value it) in
    ret (b, None)
  | None =>
    let! r := DescribeInstanceStatus [instanceid] in
    match r with
    | inl err =>
      ret (false,
           Some (Errorf "Unable to DescribeInstanceStatus on %v: %v"
                   [AStr instanceid; AErr err]))
    | inr o => scanStatuses cacheName instanceid o
    end
  end.

End Resolvers.

(** * Definitions used by the statements *)

(** ** Cache hits and misses of a request *)

(** The string a name resolves to from the cache, if it hits. *)
Definition cachedString (c : gmap (string * string) albcache.Item) (t : Z)
    (cacheName n : string) : option string :=
  match albcache.Get c t cacheName n with
  | Some it => match albcache.Value it with
               | VString v => Some v
               | _ => None
               end
  | None => None
  end.

(** Whether a name misses: no entry, or an expired one. *)
Definition isMiss (c : gmap (string * string) albcache.Item) (t : Z)
    (cacheName n : string) : bool :=
  match albcache.Get c t cacheName n with
  | Some _ => false
  | None => true
  end.

(** The identifiers of the names that hit, in the order of the request. *)
Definition cacheHits (cacheName : string) (names : list string) (s : State)
    : list string :=
  omap (cachedString (cache s) (now s) cacheName) names.

(** The names that miss, in the order of the request. *)
Definition cacheMisses (cacheName : string) (names : list string) (s : State)
    : list string :=
  List.filter (isMiss (cache s) (now s) cacheName) names.

(** Every name that hits holds a string, as the entries written by
    [GetSubnets] and [GetSecurityGroups] do. *)
Definition hitsAreStrings (cacheName : string) (names : list string)
    (s : State) : Prop :=
  Forall (fun n => isMiss (cache s) (now s) cacheName n = true \/
                   is_Some (cachedString (cache s) (now s) cacheName n)) names.

(** ** Availability-zone deduplication *)

(** Two subnets in the same availability zone. *)
Definition sharesZone (a b : ec2.Subnet) : bool :=
  String.eqb (ec2.AvailabilityZone a) (ec2.AvailabilityZone b).

(** Availability-zone deduplication in the words of the specification: the
    candidates are taken in order, and a candidate is admitted only if no
    candidate admitted before it shares its availability zone. *)
Fixpoint azDedup (admitted candidates : list ec2.Subnet) : list ec2.Subnet :=
  match candidates with
  | [] => admitted
  | c :: rest =>
    if existsb (sharesZone c) admitted then azDedup admitted rest
    else azDedup (admitted ++ [c]) rest
  end.

(** The subnet a candidate id resolves to from the cache, if it hits. *)
Definition cachedSubnet (c : gmap (string * string) albcache.Item) (t : Z)
    (id : string) : option ec2.Subnet :=
  match albcache.Get c t "ClusterSubnets" id with
  | Some it => match albcache.Value it with
               | VSubnet sn => Some sn
               | _ => None
               end
  | None => None
  end.

(** The candidate id a tag of the subnet [arn] gives: the last piece of the
    ARN when the tag carries the role key. *)
Definition tagIds (key arn : string) (tag : ec2.Tag) : list string :=
  if String.eqb (ec2.Key tag) key then [lastPiece arn] else [].

(** The candidate ids in discovery order: one id per tag that carries the
    role key, subnet by subnet in the order of the range over
    [resources.Subnets]. *)
Definition candidateIds (key : string) (subnets : list (string * list ec2.Tag))
    : list string :=
  flat_map (fun '(arn, subnetTags) => flat_map (tagIds key arn) subnetTags) subnets.

(** The accumulator of the first loop once the candidates [ids] have been
    looked up in the cache of [s]. *)
Definition scanned (s : State) (useable : list ec2.Subnet)
    (filterValues ids : list string)
    : list ec2.Subnet * list string * list string :=
  let useable' := azDedup useable (omap (cachedSubnet (cache s) (now s)) ids) in
  (useable', map ec2.SubnetId useable',
   filterValues ++ List.filter (isMiss (cache s) (now s) "ClusterSubnets") ids).

(** What the describe query of [ClusterSubnets] returns for the misses; no
    query is sent when there is no miss. *)
Definition describedSubnets (E : Env) (s : State) (misses : list string)
    : list ec2.Subnet :=
  match misses with
  | [] => []
  | _ :: _ =>
    match describeSubnets E (calls s ++ [CGetClusterResources])
            [ {| ec2.Name := "subnet-id"; ec2.Values := misses |} ] with
    | inr o => o
    | inl _ => []
    end
  end.

(** ** Deletion attempts *)

(** One attempt of the deletion of [sgID]. *)
Definition attemptDelete (E : Env) (sgID : string) : M (option ExtError) :=
  remote (CDeleteSecurityGroup sgID) (fun log => deleteSecurityGroup E log sgID).

(** The state [s] after [k] attempts to delete [sgID]. *)
Definition afterAttempts (sgID : string) (s : State) (k : nat) : State :=
  {| cache := cache s; now := now s;
     calls := calls s ++ replicate k (CDeleteSecurityGroup sgID) |}.

(** * Concrete scenarios *)

Module Scenario.

(** A client retryer in the style of the SDK default: it retries request
  throttling, at most 3 times. *)
Definition throttleRetryer : request.Retryer :=
{| request.RetryRules := fun _ => 0%Z;
   request.ShouldRetry := fun req =>
     match request.Error req with
     | Some (AwsError code _) => String.eqb code "RequestLimitExceeded"
     | _ => false
     end;
   request.MaxRetries := 3%Z |}.

(** An environment with the override [vpc] in which every remote operation
  is out of reach, and its variants with one oracle replaced. *)
Definition offline (vpc : string) : Env :=
{| AWS_VPC_ID := vpc;
   describeSubnets := fun _ _ => inl (PlainError "unreachable");
   describeSecurityGroups := fun _ _ => inl (PlainError "unreachable");
   describeInstances := fun _ _ => inl (PlainError "unreachable");
   describeVpcs := fun _ _ => inl (PlainError "unreachable");
   describeInstanceStatus := fun _ _ => inl (PlainError "unreachable");
   deleteSecurityGroup := fun _ _ => Some (PlainError "unreachable");
   getInstanceIdentityDocument := fun _ => inl (PlainError "unreachable");
   getClusterResources := fun _ => inl (PlainError "unreachable");
   defaultRetryer := throttleRetryer |}.

Definition withSubnets (E : Env)
  (f : list Call -> list ec2.Filter -> ExtError + list ec2.Subnet) : Env :=
{| AWS_VPC_ID := AWS_VPC_ID E;
   describeSubnets := f;
   describeSecurityGroups := describeSecurityGroups E;
   describeInstances := describeInstances E;
   describeVpcs := describeVpcs E;
   describeInstanceStatus := describeInstanceStatus E;
   deleteSecurityGroup := deleteSecurityGroup E;
   getInstanceIdentityDocument := getInstanceIdentityDocument E;
   getClusterResources := getClusterResources E;
   defaultRetryer := defaultRetryer E |}.

Definition withSecurityGroups (E : Env)
  (f : list Call -> list ec2.Filter -> ExtError + list ec2.SecurityGroup) : Env :=
{| AWS_VPC_ID := AWS_VPC_ID E;
   describeSubnets := describeSubnets E;
   describeSecurityGroups := f;
   describeInstances := describeInstances E;
   describeVpcs := describeVpcs E;
   describeInstanceStatus := describeInstanceStatus E;
   deleteSecurityGroup := deleteSecurityGroup E;
   getInstanceIdentityDocument := getInstanceIdentityDocument E;
   getClusterResources := getClusterResources E;
   defaultRetryer := defaultRetryer E |}.

Definition withClusterResources (E : Env) (subnets : list (string * list ec2.Tag))
  : Env :=
{| AWS_VPC_ID := AWS_VPC_ID E;
   describeSubnets := describeSubnets E;
   describeSecurityGroups := describeSecurityGroups E;
   describeInstances := describeInstances E;
   describeVpcs := describeVpcs E;
   describeInstanceStatus := describeInstanceStatus E;
   deleteSecurityGroup := deleteSecurityGroup E;
   getInstanceIdentityDocument := getInstanceIdentityDocument E;
   getClusterResources := fun _ => inr {| Subnets := subnets |};
   defaultRetryer := defaultRetryer E |}.

Definition withInstance (E : Env) (instanceID : string)
  (o : ec2.DescribeInstancesOutput) : Env :=
{| AWS_VPC_ID := AWS_VPC_ID E;
   describeSubnets := describeSubnets E;
   describeSecurityGroups := describeSecurityGroups E;
   describeInstances := fun _ _ => inr o;
   describeVpcs := describeVpcs E;
   describeInstanceStatus := describeInstanceStatus E;
   deleteSecurityGroup := deleteSecurityGroup E;
   getInstanceIdentityDocument := fun _ => inr {| InstanceID := instanceID |};
   getClusterResources := getClusterResources E;
   defaultRetryer := defaultRetryer E |}.

Definition withVpcs (E : Env) (f : list string -> list ec2.Vpc) : Env :=
{| AWS_VPC_ID := AWS_VPC_ID E;
   describeSubnets := describeSubnets E;
   describeSecurityGroups := describeSecurityGroups E;
   describeInstances := describeInstances E;
   describeVpcs := fun _ ids => inr (f ids);
   describeInstanceStatus := describeInstanceStatus E;
   deleteSecurityGroup := deleteSecurityGroup E;
   getInstanceIdentityDocument := getInstanceIdentityDocument E;
   getClusterResources := getClusterResources E;
   defaultRetryer := defaultRetryer E |}.

Definition withInstanceStatus (E : Env) (statuses : list ec2.InstanceStatus) : Env :=
{| AWS_VPC_ID := AWS_VPC_ID E;
   describeSubnets := describeSubnets E;
   describeSecurityGroups := describeSecurityGroups E;
   describeInstances := describeInstances E;
   describeVpcs := describeVpcs E;
   describeInstanceStatus := fun _ _ => inr statuses;
   deleteSecurityGroup := deleteSecurityGroup E;
   getInstanceIdentityDocument := getInstanceIdentityDocument E;
   getClusterResources := getClusterResources E;
   defaultRetryer := defaultRetryer E |}.

Definition withDelete (E : Env) (f : list Call -> option ExtError) : Env :=
{| AWS_VPC_ID := AWS_VPC_ID E;
   describeSubnets := describeSubnets E;
   describeSecurityGroups := describeSecurityGroups E;
   describeInstances := describeInstances E;
   describeVpcs := describeVpcs E;
   describeInstanceStatus := describeInstanceStatus E;
   deleteSecurityGroup := fun log _ => f log;
   getInstanceIdentityDocument := getInstanceIdentityDocument E;
   getClusterResources := getClusterResources E;
   defaultRetryer := defaultRetryer E |}.

(** The state of a process that has just started, at time 0. *)
Definition fresh : State := {| cache := ∅; now := 0; calls := [] |}.

(** The state a run ends in; [s] itself if the run panics. *)
Definition stateAfter {A} (m : M A) (s : State) : State :=
match m s with
| Done _ s' => s'
| Panic _ => s
end.

(** An inventory of named subnets and a describe oracle that honours the
  name filter. *)
Definition namedSubnet (id zone name : string) : ec2.Subnet :=
{| ec2.SubnetId := id; ec2.AvailabilityZone := zone;
   ec2.Tags := [ {| ec2.Key := "Name"; ec2.Value := name |} ] |}.

Definition inventory : list ec2.Subnet :=
[ namedSubnet "subnet-001" "us-west-2a" "subnet-a";
  namedSubnet "subnet-002" "us-west-2b" "subnet-b";
  namedSubnet "subnet-003" "us-west-2c" "subnet-c" ].

Definition filterValuesOf (name : string) (filters : list ec2.Filter) : list string :=
flat_map (fun f => if String.eqb (ec2.Name f) name then ec2.Values f else [])
         filters.

Definition subnetsByName (filters : list ec2.Filter) : list ec2.Subnet :=
List.filter
  (fun sn => match EC2Tags_Get (ec2.Tags sn) "Name" with
             | Some n => existsb (String.eqb n) (filterValuesOf "tag:Name" filters)
             | None => false
             end)
  inventory.

Definition namedGroup (id name : string) : ec2.SecurityGroup :=
{| ec2.GroupId := id;
   ec2.GroupTags := [ {| ec2.Key := "Name"; ec2.Value := name |} ] |}.

Definition groupsByName (filters : list ec2.Filter) : list ec2.SecurityGroup :=
List.filter
  (fun sg => match EC2Tags_Get (ec2.GroupTags sg) "Name" with
             | Some n => existsb (String.eqb n) (filterValuesOf "tag:Name" filters)
             | None => false
             end)
  [ namedGroup "sg-001" "sg-a"; namedGroup "sg-002" "sg-b" ].

Definition envNames : Env :=
withSecurityGroups
  (withSubnets (offline "vpc-1") (fun _ filters => inr (subnetsByName filters)))
  (fun _ filters => inr (groupsByName filters)).

(** The cache of the scenario of C3: subnet-a and sg-a resolved earlier. *)
Definition warmNames : State :=
{| cache := <[("EC2.GetSubnets", "subnet-a") :=
               {| albcache.Value := VString "subnet-001";
                  albcache.expires := 3600 |}]>
            (<[("EC2.GetSecurityGroups", "sg-a") :=
               {| albcache.Value := VString "sg-001";
                  albcache.expires := 3600 |}]> ∅);
   now := 0; calls := [] |}.

(** Cluster subnets. *)
Definition roleTags (role : string) : list ec2.Tag :=
[ {| ec2.Key := "kubernetes.io/cluster/demo"; ec2.Value := "owned" |};
  {| ec2.Key := role; ec2.Value := "1" |} ].

Definition zoneSubnet (id zone : string) : ec2.Subnet :=
{| ec2.SubnetId := id; ec2.AvailabilityZone := zone; ec2.Tags := [] |}.

(** One tagged subnet only. *)
Definition envOneSubnet (role : string) : Env :=
withSubnets
  (withClusterResources (offline "vpc-1")
     [ ("arn:aws:ec2:us-west-2:000000000000:subnet/subnet-1", roleTags role) ])
  (fun _ _ => inr [ zoneSubnet "subnet-1" "us-west-2a" ]).

(** No tagged subnet at all. *)
Definition envNoSubnet : Env := withClusterResources (offline "vpc-1") [].

(** Three tagged subnets, discovered in the order 1, 2, 3; subnets 1 and 2
  share a zone. *)
Definition discovered : list ec2.Subnet :=
[ zoneSubnet "subnet-1" "us-west-2a";
  zoneSubnet "subnet-2" "us-west-2a";
  zoneSubnet "subnet-3" "us-west-2b" ].

Definition taggedThree : list (string * list ec2.Tag) :=
[ ("arn:aws:ec2:us-west-2:000000000000:subnet/subnet-1",
   roleTags tagNameSubnetInternalELB);
  ("arn:aws:ec2:us-west-2:000000000000:subnet/subnet-2",
   roleTags tagNameSubnetInternalELB);
  ("arn:aws:ec2:us-west-2:000000000000:subnet/subnet-3",
   roleTags tagNameSubnetInternalELB) ].

Definition envThreeSubnets : Env :=
withSubnets
  (withClusterResources (offline "vpc-1") taggedThree)
  (fun _ filters =>
     inr (List.filter
            (fun sn => existsb (String.eqb (ec2.SubnetId sn))
                               (filterValuesOf "subnet-id" filters))
            discovered)).

(** Subnet 2 was admitted by an earlier call and is still cached. *)
Definition warmSubnet2 : State :=
{| cache := <[("ClusterSubnets", "subnet-2") :=
               {| albcache.Value := VSubnet (zoneSubnet "subnet-2" "us-west-2a");
                  albcache.expires := 3600 |}]> ∅;
   now := 0; calls := [] |}.

(** The VPC locator without override. *)
Definition envInstance : Env :=
withVpcs
  (withInstance (offline "") "i-0123456789"
     {| ec2.Reservations :=
          [ {| ec2.Instances :=
                 [ {| ec2.InstanceId := "i-0123456789";
                      ec2.InstanceVpcId := Some "vpc-1" |} ] |} ] |})
  (fun ids => map (fun id => {| ec2.VpcId := id |}) ids).

Definition warmVpc : State :=
{| cache := <[("EC2.GetVPCID", "") :=
               {| albcache.Value := VString "vpc-7";
                  albcache.expires := 3600 |}]> ∅;
   now := 0; calls := [] |}.

(** Deletions. *)
Definition dependencyViolation : ExtError :=
AwsError "DependencyViolation" "resource has a dependent object".

Definition envAlwaysBlocked : Env :=
withDelete (offline "vpc-1") (fun _ => Some dependencyViolation).

(** Blocked for the first [n] requests of the log, then deleted. *)
Definition envBlockedFor (n : nat) : Env :=
withDelete (offline "vpc-1")
  (fun log => if length log <? n then Some dependencyViolation else None).

(** One instance status, for the instance i-2, which is running. *)
Definition envStatus : Env :=
withInstanceStatus (offline "vpc-1")
  [ {| ec2.StatusInstanceId := "i-2"; ec2.StateCode := 16 |} ].

Definition envThrottled : Env :=
withDelete (offline "vpc-1")
  (fun _ => Some (AwsError "RequestLimitExceeded" "slow down")).

End Scenario.

(** * Further functions of the package *)

(** The state [s] read at the time [t]: the cache evicts nothing in the
    background, so between two calls only the clock moves. *)
Definition atTime (s : State) (t : Z) : State :=
  {| cache := cache s; now := t; calls := calls s |}.

(** The identifiers [GetSubnets] appends for a describe response: those of
    the subnets that carry a Name tag, in the order of the response. *)
Definition namedSubnetIds (described : list ec2.Subnet) : list string :=
  flat_map
    (fun subnet => match EC2Tags_Get (ec2.Tags subnet) "Name" with
                   | Some _ => [ec2.SubnetId subnet]
                   | None => []
                   end)
    described.

(** ** The uncached lookups and their pagination helpers *)

Module paged.

(** The two fields of [ec2.DescribeSecurityGroupsInput] the package sets. *)
Record DescribeSecurityGroupsInput : Type :=
  { GroupIds : list string; Filters : list ec2.Filter }.

Record DescribeInstancesInput : Type := { InstanceIds : list string }.

(** What paging through a request gives: the pages the service delivered,
    in order, and the error on which the paging stopped, if any. The token
    protocol is the SDK's ([request.Pagination], [DescribeInstancesPages])
    and stays behind this record; the requests of these lookups are not
    entered in the call log. *)
Record Pages (A : Type) : Type :=
  { delivered : list A; failure : option ExtError }.
Arguments delivered {A} _.
Arguments failure {A} _.

Section Lookups.

Variable securityGroupPages :
  DescribeSecurityGroupsInput -> Pages (list ec2.SecurityGroup).
Variable instancePages :
  DescribeInstancesInput -> Pages ec2.DescribeInstancesOutput.

(** [describeSecurityGroupsHelper]: the groups of every page are appended;
    the accumulated groups are returned with the error of the paging. *)
Definition describeSecurityGroupsHelper (params : DescribeSecurityGroupsInput)
    : list ec2.SecurityGroup * option ExtError :=
  let p := securityGroupPages params in
  (fold_left (fun results page => results ++ page) (delivered p) [],
   failure p).

(** [describeInstancesHelper]: the callback appends the reservations of
    each page and always asks for the next one. *)
Definition describeInstancesHelper (params : DescribeInstancesInput)
    : list ec2.Reservation * option ExtError :=
  let p := instancePages params in
  (fold_left (fun result output => result ++ ec2.Reservations output)
             (delivered p) [],
   failure p).

(** [EC2.GetInstancesByID]. *)
Definition GetInstancesByID (instanceIDs : list string)
    : list ec2.Instance * option error :=
  let '(reservations, err) :=
    describeInstancesHelper {| InstanceIds := instanceIDs |} in
  match err with
  | Some err => ([], Some (External err))
  | None =>
    (fold_left (fun result reservation => result ++ ec2.Instances reservation)
               reservations [],
     None)
  end.

(** [EC2.GetSecurityGroupByID]. *)
Definition GetSecurityGroupByID (sgID : string)
    : option ec2.SecurityGroup * option error :=
  let '(securityGroups, err) :=
    describeSecurityGroupsHelper {| GroupIds := [sgID]; Filters := [] |} in
  match err with
  | Some err => (None, Some (External err))
  | None =>
    match securityGroups with
    | [] => (None, None)
    | sg0 :: _ => (Some sg0, None)
    end
  end.

(** [EC2.GetSecurityGroupByName]. *)
Definition GetSecurityGroupByName (vpcID sgName : string)
    : option ec2.SecurityGroup * option error :=
  let '(securityGroups, err) :=
    describeSecurityGroupsHelper
      {| GroupIds := [];
         Filters := [ {| ec2.Name := "vpc-id"; ec2.Values := [vpcID] |};
                      {| ec2.Name := "group-name"; ec2.Values := [sgName] |} ] |}
  in
  match err with
  | Some err => (None, Some (External err))
  | None =>
    match securityGroups with
    | [] => (None, None)
    | sg0 :: _ => (Some sg0, None)
    end
  end.

End Lookups.

End paged.

(** ** Further definitions used by the statements *)

(** The subnets [ClusterSubnets] newly admits from [candidates] when
    [admitted] are admitted already: [azDedup admitted candidates] is
    [admitted] followed by them. *)
Fixpoint newlyAdmitted (admitted candidates : list ec2.Subnet)
    : list ec2.Subnet :=
  match candidates with
  | [] => []
  | c :: rest =>
    if existsb (sharesZone c) admitted then newlyAdmitted admitted rest
    else c :: newlyAdmitted (admitted ++ [c]) rest
  end.

(** The remote calls of one run of [ClusterSubnets] with a valid scheme:
    the tag index, then the describe query for the misses, if any. *)
Definition clusterCalls (misses : list string) : list Call :=
  CGetClusterResources ::
  match misses with
  | [] => []
  | _ :: _ =>
    [CDescribeSubnets [ {| ec2.Name := "subnet-id"; ec2.Values := misses |} ]]
  end.

(** * Properties *)

(** ** The cache *)

(** A hit is an entry that is present and has not expired. *)
Lemma Get_Some (c : gmap (string * string) albcache.Item) (t : Z)
    (cacheName key : string) (it : albcache.Item) :
  albcache.Get c t cacheName key = Some it <->
  c !! (cacheName, key) = Some it /\ (t < albcache.expires it)%Z.
Proof.
  unfold albcache.Get.
  destruct (c !! (cacheName, key)) as [it'|]; [|split; [done | by intros [? _]]].
  destruct (Z.ltb_spec t (albcache.expires it')); split.
  - by intros [= ->].
  - intros [[= ->] _]. done.
  - done.
  - intros [[= ->] ?]. lia.
Qed.

(** A value set with a ttl is read back until the ttl has elapsed. *)
Lemma Get_Set_eq (c : gmap (string * string) albcache.Item) (t t' : Z)
    (cacheName key : string) (v : CacheValue) (ttl : time.Duration) :
  (t' < t + ttl)%Z ->
  albcache.Get (albcache.Set_ c t cacheName key v ttl) t' cacheName key =
  Some {| albcache.Value := v; albcache.expires := (t + ttl)%Z |}.
Proof.
  intros Hlt. unfold albcache.Get, albcache.Set_. rewrite lookup_insert_eq. simpl.
  destruct (Z.ltb_spec t' (t + ttl)); [done | lia].
Qed.

(** Once the ttl has elapsed the entry is a miss, with no write in
    between. *)
Lemma Get_Set_expired (c : gmap (string * string) albcache.Item) (t t' : Z)
    (cacheName key : string) (v : CacheValue) (ttl : time.Duration) :
  (t + ttl <= t')%Z ->
  albcache.Get (albcache.Set_ c t cacheName key v ttl) t' cacheName key = None.
Proof.
  intros Hle. unfold albcache.Get, albcache.Set_. rewrite lookup_insert_eq. simpl.
  destruct (Z.ltb_spec t' (t + ttl)); [lia | done].
Qed.

(** A write under one namespace and key leaves every other pair as it
    was. *)
Lemma Get_Set_ne (c : gmap (string * string) albcache.Item) (t t' : Z)
    (cacheName key cacheName' key' : string) (v : CacheValue)
    (ttl : time.Duration) :
  (cacheName, key) <> (cacheName', key') ->
  albcache.Get (albcache.Set_ c t cacheName key v ttl) t' cacheName' key' =
  albcache.Get c t' cacheName' key'.
Proof.
  intros Hne. unfold albcache.Get, albcache.Set_. by rewrite lookup_insert_ne.
Qed.

(** ** instanceVPCIsValid *)

(** A response that passes the validation has a non-empty VPC id on its
    first instance, so [GetVPCID] does not reach its nil branch. *)
Lemma instanceVPCIsValid_ok (o : ec2.DescribeInstancesOutput) :
  instanceVPCIsValid o = None ->
  exists vpc, firstInstanceVpcId o = Some vpc /\ vpc <> "".
Proof.
  unfold instanceVPCIsValid, firstInstanceVpcId.
  destruct (ec2.Reservations o) as [|r0 rest]; [discriminate|].
  destruct (Z.ltb_spec (Z.of_nat (length (r0 :: rest))) 1); [discriminate|].
  destruct (ec2.Instances r0) as [|i0 rest']; [discriminate|].
  destruct (Z.ltb_spec (Z.of_nat (length (i0 :: rest'))) 1); [discriminate|].
  destruct (ec2.InstanceVpcId i0) as [v|]; [|discriminate].
  destruct (String.eqb_spec v ""); [discriminate|].
  intros _. by exists v.
Qed.

(** C9, at the failing input: a response with reservations whose first
    reservation has no instance is refused with the message about
    instances, but the count the message prints is the number of
    reservations (at least 1), not the number of instances found (0). *)
Theorem instanceVPCIsValid_no_instances_count (rest : list ec2.Reservation) :
  let o := {| ec2.Reservations := {| ec2.Instances := [] |} :: rest |} in
  length (ec2.Instances {| ec2.Instances := [] |}) = 0 /\
  instanceVPCIsValid o =
    Some (Errorf
      "When looking up VPC ID could not identify instance. Found %d instances in AWS call. Should have found atleast 1."
      [AInt (Z.of_nat (S (length rest)))]).
Proof.
  simpl. split; [done|].
  unfold instanceVPCIsValid. simpl ec2.Reservations.
  destruct (Z.ltb_spec (Z.of_nat (length ({| ec2.Instances := [] |} :: rest))) 1) as [Hlt|_].
  - simpl length in Hlt. lia.
  - done.
Qed.

(** The other three violations are reported as the claim of C9 says. *)
Lemma instanceVPCIsValid_no_reservations :
  instanceVPCIsValid {| ec2.Reservations := [] |} =
    Some (Errorf
      "When looking up VPC ID could not identify instance. Found %d reservations in AWS call. Should have found atleast 1."
      [AInt 0]).
Proof. reflexivity. Qed.

Lemma instanceVPCIsValid_bad_vpc (i0 : ec2.Instance) (others : list ec2.Instance)
    (rest : list ec2.Reservation) :
  ec2.InstanceVpcId i0 = None \/ ec2.InstanceVpcId i0 = Some "" ->
  exists format,
    instanceVPCIsValid
      {| ec2.Reservations := {| ec2.Instances := i0 :: others |} :: rest |} =
    Some (Errorf format []).
Proof.
  intros Hv. unfold instanceVPCIsValid. simpl ec2.Reservations.
  destruct (Z.ltb_spec (Z.of_nat (length ({| ec2.Instances := i0 :: others |} :: rest))) 1)
    as [Hlt|_]; [simpl length in Hlt; lia|].
  simpl ec2.Instances.
  destruct (Z.ltb_spec (Z.of_nat (length (i0 :: others))) 1)
    as [Hlt|_]; [simpl length in Hlt; lia|].
  destruct Hv as [-> | ->]; eauto.
Qed.

(** ** GetVPCID *)

Section GetVPCIDProperties.

Variable E : Env.

Lemma GetVPCID_override (s : State) :
  AWS_VPC_ID E <> "" ->
  GetVPCID E s = Done (Some (AWS_VPC_ID E), None) s.
Proof.
  intros Hne. unfold GetVPCID.
  by destruct (String.eqb_spec (AWS_VPC_ID E) "").
Qed.

Lemma GetVPCID_cached (s : State) (it : albcache.Item) (v : string) :
  AWS_VPC_ID E = "" ->
  albcache.Get (cache s) (now s) "EC2.GetVPCID" "" = Some it ->
  albcache.Value it = VString v ->
  GetVPCID E s = Done (Some v, None) s.
Proof.
  intros Henv Hget Hv. unfold GetVPCID. rewrite Henv. simpl.
  unfold bind, cacheGet. rewrite Hget, Hv. done.
Qed.

Lemma GetVPCID_fallback (s : State) (doc : InstanceIdentityDocument)
    (o : ec2.DescribeInstancesOutput) (vpc : string) :
  AWS_VPC_ID E = "" ->
  albcache.Get (cache s) (now s) "EC2.GetVPCID" "" = None ->
  getInstanceIdentityDocument E (calls s) = inr doc ->
  describeInstances E (calls s ++ [CGetInstanceIdentityDocument])
                    [InstanceID doc] = inr o ->
  instanceVPCIsValid o = None ->
  firstInstanceVpcId o = Some vpc ->
  GetVPCID E s =
    Done (Some vpc, None)
         {| cache := albcache.Set_ (cache s) (now s) "EC2.GetVPCID" ""
                       (VString vpc) (60 * time.Minute)%Z;
            now := now s;
            calls := calls s ++ [CGetInstanceIdentityDocument;
                                 CDescribeInstances [InstanceID doc]] |}.
Proof.
  intros Henv Hget Hdoc Hdesc Hvalid Hvpc. unfold GetVPCID. rewrite Henv. simpl.
  unfold bind, cacheGet. rewrite Hget.
  unfold GetInstanceIdentityDocument, remote. rewrite Hdoc.
  unfold DescribeInstances, remote. simpl. rewrite Hdesc, Hvalid, Hvpc.
  unfold cacheSet, ret. simpl. by rewrite <- app_assoc.
Qed.

(** Whatever the state, a nil error of [GetVPCID] comes with an id. *)
Lemma GetVPCID_id_or_error (s s' : State) (r : option string * option error) :
  GetVPCID E s = Done r s' ->
  (exists vpc, r = (Some vpc, None)) \/ (exists err, r = (None, Some err)).
Proof.
  unfold GetVPCID.
  destruct (negb (String.eqb (AWS_VPC_ID E) "")); [intros [= <- _]; eauto|].
  unfold bind, cacheGet.
  destruct (albcache.Get (cache s) (now s) "EC2.GetVPCID" "") as [it|].
  { destruct (albcache.Value it); simpl; try discriminate.
    intros [= <- _]. eauto. }
  unfold GetInstanceIdentityDocument, remote.
  destruct (getInstanceIdentityDocument E (calls s)) as [err|doc];
    [intros [= <- _]; eauto|].
  unfold DescribeInstances, remote. simpl.
  destruct (describeInstances E _ _) as [err|o]; [intros [= <- _]; eauto|].
  destruct (instanceVPCIsValid o) as [err|]; [intros [= <- _]; eauto|].
  destruct (firstInstanceVpcId o) as [vpc|]; [|discriminate].
  intros [= <- _]. eauto.
Qed.

End GetVPCIDProperties.

(** C6: [GetVPCID] resolves in a fixed order. (1) A configured override is
    returned at once and the state, the call log included, is unchanged.
    (2) Without an override, an entry under [("EC2.GetVPCID", "")] that has
    not expired is returned, again with no call. (3) Without either, the
    identity document is fetched, the instance it names is described, and
    when the response is valid the VPC id of its first instance is stored
    under that fixed key with an expiry of 60 minutes from now and
    returned. *)
Theorem GetVPCID_resolution_order (E : Env) (s : State) :
  (AWS_VPC_ID E <> "" ->
   GetVPCID E s = Done (Some (AWS_VPC_ID E), None) s) /\
  (AWS_VPC_ID E = "" ->
   forall (v : string) (expiry : Z),
     cache s !! ("EC2.GetVPCID", "") =
       Some {| albcache.Value := VString v; albcache.expires := expiry |} ->
     (now s < expiry)%Z ->
     GetVPCID E s = Done (Some v, None) s) /\
  (AWS_VPC_ID E = "" ->
   albcache.Get (cache s) (now s) "EC2.GetVPCID" "" = None ->
   forall (doc : InstanceIdentityDocument) (o : ec2.DescribeInstancesOutput),
     getInstanceIdentityDocument E (calls s) = inr doc ->
     describeInstances E (calls s ++ [CGetInstanceIdentityDocument])
                       [InstanceID doc] = inr o ->
     instanceVPCIsValid o = None ->
     exists vpc : string,
       firstInstanceVpcId o = Some vpc /\
       GetVPCID E s =
         Done (Some vpc, None)
              {| cache := <[("EC2.GetVPCID", "") :=
                             {| albcache.Value := VString vpc;
                                albcache.expires := (now s + 60 * time.Minute)%Z |}]>
                          (cache s);
                 now := now s;
                 calls := calls s ++ [CGetInstanceIdentityDocument;
                                      CDescribeInstances [InstanceID doc]] |}).
Proof.
  split; [apply GetVPCID_override|]. split.
  - intros Henv v expiry Hlook Hlive.
    apply (GetVPCID_cached E s
             {| albcache.Value := VString v; albcache.expires := expiry |} v);
      [done| |done].
    by apply Get_Some.
  - intros Henv Hmiss doc o Hdoc Hdesc Hvalid.
    destruct (instanceVPCIsValid_ok o Hvalid) as (vpc & Hvpc & _).
    exists vpc. split; [done|].
    rewrite (GetVPCID_fallback E s doc o vpc); auto.
Qed.

(** ** ClusterSubnets: the scheme *)

(** A tag whose key is not the role key of the scheme is passed over. *)
Lemma scanTag_other_key (cacheName key arn : string)
    (acc : list ec2.Subnet * list string * list string) (tag : ec2.Tag) (s : State) :
  ec2.Key tag <> key ->
  scanTag cacheName key arn acc tag s = Done acc s.
Proof.
  intros Hne. unfold scanTag. destruct acc as [[useable out] filterValues].
  by destruct (String.eqb_spec (ec2.Key tag) key).
Qed.

Lemma schemeTagKey_other (scheme : string) :
  scheme <> "internal" -> scheme <> "internet-facing" ->
  schemeTagKey scheme = None.
Proof.
  intros H1 H2. unfold schemeTagKey.
  destruct (String.eqb_spec scheme elbv2.LoadBalancerSchemeEnumInternal); [done|].
  by destruct (String.eqb_spec scheme elbv2.LoadBalancerSchemeEnumInternetFacing).
Qed.

(** C7: the two schemes select different role tag keys, a tag carrying the
    key of one scheme is passed over under the other, and any other scheme
    is refused with the validation error while the state, the log of remote
    calls included, is left as it was. *)
Theorem ClusterSubnets_scheme_validation (E : Env) :
  schemeTagKey "internal" = Some tagNameSubnetInternalELB /\
  schemeTagKey "internet-facing" = Some tagNameSubnetPublicELB /\
  tagNameSubnetInternalELB <> tagNameSubnetPublicELB /\
  (forall (s : State),
     ClusterSubnets E "internal" s = clusterSubnetsFor E tagNameSubnetInternalELB s /\
     ClusterSubnets E "internet-facing" s = clusterSubnetsFor E tagNameSubnetPublicELB s) /\
  (forall (arn : string) (acc : list ec2.Subnet * list string * list string)
          (tag : ec2.Tag) (s : State),
     (ec2.Key tag = tagNameSubnetPublicELB ->
      scanTag "ClusterSubnets" tagNameSubnetInternalELB arn acc tag s = Done acc s) /\
     (ec2.Key tag = tagNameSubnetInternalELB ->
      scanTag "ClusterSubnets" tagNameSubnetPublicELB arn acc tag s = Done acc s)) /\
  (forall (scheme : string) (s : State),
     scheme <> "internal" -> scheme <> "internet-facing" ->
     ClusterSubnets E scheme s =
       Done ([], Some (Errorf "Invalid scheme [%s]" [AStr scheme])) s).
Proof.
  repeat split; try done.
  - intros Hk. apply scanTag_other_key. by rewrite Hk.
  - intros Hk. apply scanTag_other_key. by rewrite Hk.
  - intros scheme s H1 H2. unfold ClusterSubnets. by rewrite schemeTagKey_other.
Qed.

(** ** IsNodeHealthy *)

Section IsNodeHealthyProperties.

Variable E : Env.

(** Entries for other instances are skipped; the first entry for the
    instance decides, and its verdict is stored. *)
Lemma scanStatuses_first (id : string) (before after : list ec2.InstanceStatus)
    (st : ec2.InstanceStatus) (s : State) :
  Forall (fun x => ec2.StatusInstanceId x <> id) before ->
  ec2.StatusInstanceId st = id ->
  scanStatuses "ec2.IsNodeHealthy" id (before ++ st :: after) s =
    Done ((ec2.StateCode st =? 16)%Z, None)
         {| cache := albcache.Set_ (cache s) (now s) "ec2.IsNodeHealthy" id
                       (VBool (ec2.StateCode st =? 16)%Z) IsNodeHealthyCacheTTL;
            now := now s;
            calls := calls s |}.
Proof.
  intros Hbefore Hid. induction Hbefore as [|x before Hx _ IH]; simpl.
  - destruct (String.eqb_spec (ec2.StatusInstanceId st) id); [|done]. simpl.
    by destruct (ec2.StateCode st =? 16)%Z.
  - by destruct (String.eqb_spec (ec2.StatusInstanceId x) id).
Qed.

Lemma scanStatuses_absent (id : string) (statuses : list ec2.InstanceStatus)
    (s : State) :
  Forall (fun x => ec2.StatusInstanceId x <> id) statuses ->
  scanStatuses "ec2.IsNodeHealthy" id statuses s = Done (false, None) s.
Proof.
  induction 1 as [|x statuses Hx _ IH]; simpl; [done|].
  by destruct (String.eqb_spec (ec2.StatusInstanceId x) id).
Qed.

Lemma scanStatuses_calls (id : string) (statuses : list ec2.InstanceStatus)
    (s : State) :
  exists r s', scanStatuses "ec2.IsNodeHealthy" id statuses s = Done r s' /\
               calls s' = calls s.
Proof.
  induction statuses as [|x statuses IH]; simpl; [by eexists _, _|].
  destruct (negb _); [done|].
  destruct (ec2.StateCode x =? 16)%Z; by eexists _, _.
Qed.

(** On a cache miss the status query is always sent. *)
Lemma IsNodeHealthy_miss_queries (id : string) (s : State) :
  albcache.Get (cache s) (now s) "ec2.IsNodeHealthy" id = None ->
  exists r s', IsNodeHealthy E id s = Done r s' /\
               calls s' = calls s ++ [CDescribeInstanceStatus [id]].
Proof.
  intros Hmiss. unfold IsNodeHealthy, bind, cacheGet. rewrite Hmiss.
  unfold DescribeInstanceStatus, remote.
  destruct (describeInstanceStatus E (calls s) [id]) as [err|o];
    [by eexists _, _|].
  apply scanStatuses_calls.
Qed.

End IsNodeHealthyProperties.

(** C8: on a cache miss with a status response that succeeds, (1) when the
    response has no entry for the instance the call returns false, the cache
    is untouched, and a call made right after it sends the status query
    again; (2) when the response has an entry for the instance, the first
    such entry gives the verdict (its state code is 16), which is stored
    under the instance id with an expiry of 5 minutes from now and
    returned. *)
Theorem IsNodeHealthy_absent_not_cached (E : Env) (id : string) (s : State)
    (statuses : list ec2.InstanceStatus) :
  albcache.Get (cache s) (now s) "ec2.IsNodeHealthy" id = None ->
  describeInstanceStatus E (calls s) [id] = inr statuses ->
  (Forall (fun x => ec2.StatusInstanceId x <> id) statuses ->
   let s1 := {| cache := cache s; now := now s;
                calls := calls s ++ [CDescribeInstanceStatus [id]] |} in
   IsNodeHealthy E id s = Done (false, None) s1 /\
   exists r s2, IsNodeHealthy E id s1 = Done r s2 /\
                calls s2 = calls s ++ [CDescribeInstanceStatus [id];
                                       CDescribeInstanceStatus [id]]) /\
  (forall (before after : list ec2.InstanceStatus) (st : ec2.InstanceStatus),
     statuses = before ++ st :: after ->
     Forall (fun x => ec2.StatusInstanceId x <> id) before ->
     ec2.StatusInstanceId st = id ->
     IsNodeHealthy E id s =
       Done ((ec2.StateCode st =? 16)%Z, None)
            {| cache := <[("ec2.IsNodeHealthy", id) :=
                           {| albcache.Value := VBool (ec2.StateCode st =? 16)%Z;
                              albcache.expires := (now s + 5 * time.Minute)%Z |}]>
                        (cache s);
               now := now s;
               calls := calls s ++ [CDescribeInstanceStatus [id]] |}).
Proof.
  intros Hmiss Hresp. split.
  - intros Habsent s1. split.
    + unfold IsNodeHealthy, bind, cacheGet. rewrite Hmiss.
      unfold DescribeInstanceStatus, remote. rewrite Hresp.
      by rewrite scanStatuses_absent.
    + destruct (IsNodeHealthy_miss_queries E id s1) as (r & s2 & Hrun & Hcalls);
        [done|].
      exists r, s2. split; [done|]. rewrite Hcalls. simpl.
      by rewrite <- app_assoc.
  - intros before after st -> Hbefore Hid.
    unfold IsNodeHealthy, bind, cacheGet. rewrite Hmiss.
    unfold DescribeInstanceStatus, remote. rewrite Hresp.
    by rewrite scanStatuses_first.
Qed.

(** ** GetSubnets and GetSecurityGroups: cache hits and misses *)

Lemma lookupNames_from (cacheName : string) (names found queryNames : list string)
    (s : State) :
  hitsAreStrings cacheName names s ->
  forRange
    (fun '(found, queryNames) n =>
       let! item := cacheGet cacheName n in
       match item with
       | Some it =>
         let! v := assertString (albcache.Value it) in
         ret (found ++ [v], queryNames)
       | None => ret (found, queryNames ++ [n])
       end)
    names (found, queryNames) s =
  Done (found ++ cacheHits cacheName names s,
        queryNames ++ cacheMisses cacheName names s) s.
Proof.
  intros Hok. revert found queryNames.
  induction Hok as [|n names Hn _ IH]; intros found queryNames.
  - simpl. unfold ret, cacheHits, cacheMisses. simpl. by rewrite !app_nil_r.
  - simpl. unfold bind at 1. unfold bind at 1. unfold cacheGet at 1.
    unfold cacheHits, cacheMisses, cachedString, isMiss in *. simpl.
    destruct (albcache.Get (cache s) (now s) cacheName n) as [it|].
    + destruct Hn as [|[v Hv]]; [done|].
      destruct (albcache.Value it); try done.
      simpl. unfold bind at 1. simpl. rewrite IH.
      injection Hv as ->. by rewrite <- app_assoc.
    + simpl. rewrite IH. by rewrite <- app_assoc.
Qed.

Lemma lookupNames_spec (cacheName : string) (names : list string) (s : State) :
  hitsAreStrings cacheName names s ->
  lookupNames cacheName names s =
    Done (cacheHits cacheName names s, cacheMisses cacheName names s) s.
Proof. intros Hok. unfold lookupNames. by rewrite lookupNames_from. Qed.

(** A loop whose body always returns and makes no remote call returns and
    makes no remote call. *)
Lemma forRange_keeps_calls {A B : Type} (body : B -> A -> M B) :
  (forall acc x s, exists acc' s',
      body acc x s = Done acc' s' /\ calls s' = calls s) ->
  forall l acc s, exists acc' s',
      forRange body l acc s = Done acc' s' /\ calls s' = calls s.
Proof.
  intros Hbody l. induction l as [|x l IH]; intros acc s; simpl.
  - by exists acc, s.
  - unfold bind. destruct (Hbody acc x s) as (acc1 & s1 & -> & Hcalls).
    destruct (IH acc1 s1) as (acc2 & s2 & -> & Hcalls').
    exists acc2, s2. split; [done|congruence].
Qed.

(** The query of [GetSubnets]: whenever a requested name misses, a single
    describe query is sent, and its name filter holds all the requested
    names, the hits included. *)
Lemma GetSubnets_query_filter (E : Env) (names : list string) (s s1 : State)
    (vpcID : string) :
  GetVPCID E s = Done (Some vpcID, None) s1 ->
  hitsAreStrings "EC2.GetSubnets" names s1 ->
  cacheMisses "EC2.GetSubnets" names s1 <> [] ->
  exists r s',
    GetSubnets E names s = Done r s' /\
    calls s' =
      calls s1 ++
      [CDescribeSubnets
         [ {| ec2.Name := "tag:Name"; ec2.Values := names |};
           {| ec2.Name := "vpc-id"; ec2.Values := [vpcID] |} ]].
Proof.
  intros Hvpc Hok Hmiss. unfold GetSubnets. unfold bind at 1. rewrite Hvpc.
  unfold bind at 1. rewrite lookupNames_spec by done.
  destruct (cacheMisses "EC2.GetSubnets" names s1) as [|q qs]; [done|].
  cbn [length].
  replace (Z.of_nat (S (length qs)) =? 0)%Z with false
    by (symmetry; apply Z.eqb_neq; lia).
  unfold bind at 1. unfold DescribeSubnets, remote.
  destruct (describeSubnets E (calls s1) _) as [err|out]; [by eexists _, _|].
  unfold bind at 1.
  match goal with
  | |- context [forRange ?body out ?acc0 ?st] =>
    assert (forall acc x s, exists acc' s',
               body acc x s = Done acc' s' /\ calls s' = calls s) as Hbody;
      [|destruct (forRange_keeps_calls body Hbody out acc0 st)
          as (acc' & s' & -> & Hcalls)]
  end.
  - intros acc x st. destruct (EC2Tags_Get (ec2.Tags x) "Name"); by eexists _, _.
  - by eexists _, _.
Qed.

(** The query of [GetSecurityGroups] holds the names that missed only. *)
Lemma GetSecurityGroups_query_filter (E : Env) (names : list string)
    (s s1 : State) (vpcID : string) :
  GetVPCID E s = Done (Some vpcID, None) s1 ->
  hitsAreStrings "EC2.GetSecurityGroups" names s1 ->
  cacheMisses "EC2.GetSecurityGroups" names s1 <> [] ->
  exists r s',
    GetSecurityGroups E names s = Done r s' /\
    calls s' =
      calls s1 ++
      [CDescribeSecurityGroups
         [ {| ec2.Name := "tag:Name";
              ec2.Values := cacheMisses "EC2.GetSecurityGroups" names s1 |};
           {| ec2.Name := "vpc-id"; ec2.Values := [vpcID] |} ]].
Proof.
  intros Hvpc Hok Hmiss. unfold GetSecurityGroups. unfold bind at 1. rewrite Hvpc.
  unfold bind at 1. rewrite lookupNames_spec by done.
  destruct (cacheMisses "EC2.GetSecurityGroups" names s1) as [|q qs]; [done|].
  cbn [length].
  replace (Z.of_nat (S (length qs)) =? 0)%Z with false
    by (symmetry; apply Z.eqb_neq; lia).
  unfold bind at 1. unfold DescribeSecurityGroups, remote.
  destruct (describeSecurityGroups E (calls s1) _) as [err|out];
    [by eexists _, _|].
  unfold bind at 1.
  match goal with
  | |- context [forRange ?body out ?acc0 ?st] =>
    assert (forall acc x s, exists acc' s',
               body acc x s = Done acc' s' /\ calls s' = calls s) as Hbody;
      [|destruct (forRange_keeps_calls body Hbody out acc0 st)
          as (acc' & s' & -> & Hcalls)]
  end.
  - intros acc x st. by eexists _, _.
  - by eexists _, _.
Qed.

(** C10: when the batched describe query fails, [GetSubnets] and
    [GetSecurityGroups] return an error together with the identifiers the
    cache hits of the same call gave, in the order of the request. [s1] is
    the state once the VPC id has been resolved. *)
Theorem describe_failure_keeps_cache_hits (E : Env) (names : list string)
    (s s1 : State) (vpcID : string) (err : ExtError) :
  GetVPCID E s = Done (Some vpcID, None) s1 ->
  (let filters := [ {| ec2.Name := "tag:Name"; ec2.Values := names |};
                    {| ec2.Name := "vpc-id"; ec2.Values := [vpcID] |} ] in
   hitsAreStrings "EC2.GetSubnets" names s1 ->
   cacheMisses "EC2.GetSubnets" names s1 <> [] ->
   describeSubnets E (calls s1) filters = inl err ->
   GetSubnets E names s =
     Done (cacheHits "EC2.GetSubnets" names s1,
           Some (Errorf "Unable to fetch subnets %v: %v" [AFilters filters; AErr err]))
          {| cache := cache s1; now := now s1;
             calls := calls s1 ++ [CDescribeSubnets filters] |}) /\
  (let filters := [ {| ec2.Name := "tag:Name";
                       ec2.Values := cacheMisses "EC2.GetSecurityGroups" names s1 |};
                    {| ec2.Name := "vpc-id"; ec2.Values := [vpcID] |} ] in
   hitsAreStrings "EC2.GetSecurityGroups" names s1 ->
   cacheMisses "EC2.GetSecurityGroups" names s1 <> [] ->
   describeSecurityGroups E (calls s1) filters = inl err ->
   GetSecurityGroups E names s =
     Done (cacheHits "EC2.GetSecurityGroups" names s1,
           Some (Errorf "Unable to fetch security groups %v: %v"
                   [AFilters filters; AErr err]))
          {| cache := cache s1; now := now s1;
             calls := calls s1 ++ [CDescribeSecurityGroups filters] |}).
Proof.
  intros Hvpc. split; intros filters Hok Hmiss Hfail.
  - unfold GetSubnets. unfold bind at 1. rewrite Hvpc.
    unfold bind at 1. rewrite lookupNames_spec by done.
    destruct (cacheMisses "EC2.GetSubnets" names s1) as [|q qs] eqn:Hq; [done|].
    simpl. unfold bind, DescribeSubnets, remote. fold filters. by rewrite Hfail.
  - unfold GetSecurityGroups. unfold bind at 1. rewrite Hvpc.
    unfold bind at 1. rewrite lookupNames_spec by done.
    subst filters.
    destruct (cacheMisses "EC2.GetSecurityGroups" names s1) as [|q qs] eqn:Hq;
      [done|].
    simpl. unfold bind, DescribeSecurityGroups, remote. by rewrite Hfail.
Qed.

(** ** ClusterSubnets: availability-zone deduplication *)

Lemma subnetIsUsable_existsb (new : ec2.Subnet) (existing : list ec2.Subnet) :
  subnetIsUsable new existing = negb (existsb (sharesZone new) existing).
Proof.
  induction existing as [|x existing IH]; simpl; [done|].
  unfold sharesZone at 1.
  by destruct (String.eqb (ec2.AvailabilityZone new) (ec2.AvailabilityZone x)).
Qed.

Lemma existsb_sharesZone (c : ec2.Subnet) (l : list ec2.Subnet) :
  existsb (sharesZone c) l = true <->
  ec2.AvailabilityZone c ∈ map ec2.AvailabilityZone l.
Proof.
  rewrite existsb_exists, list_elem_of_fmap. unfold sharesZone. split.
  - intros (x & Hin & Heq). exists x. apply String.eqb_eq in Heq.
    split; [done|]. by apply list_elem_of_In.
  - intros (x & Heq & Hin). exists x. split; [by apply list_elem_of_In|].
    by apply String.eqb_eq.
Qed.

Lemma azDedup_app (admitted l1 l2 : list ec2.Subnet) :
  azDedup admitted (l1 ++ l2) = azDedup (azDedup admitted l1) l2.
Proof.
  revert admitted. induction l1 as [|c l1 IH]; intros admitted; simpl; [done|].
  by destruct (existsb (sharesZone c) admitted).
Qed.

(** The admitted subnets lie in pairwise distinct availability zones. *)
Lemma azDedup_NoDup (admitted candidates : list ec2.Subnet) :
  NoDup (map ec2.AvailabilityZone admitted) ->
  NoDup (map ec2.AvailabilityZone (azDedup admitted candidates)).
Proof.
  revert admitted. induction candidates as [|c rest IH]; intros admitted Hnd;
    simpl; [done|].
  destruct (existsb (sharesZone c) admitted) eqn:Hex; [by apply IH|].
  apply IH. rewrite map_app. simpl. apply NoDup_app. split; [done|].
  split; [|apply NoDup_singleton].
  intros z Hz Hz'. apply list_elem_of_singleton in Hz' as ->.
  apply existsb_sharesZone in Hz. congruence.
Qed.

(** First seen wins: a subnet is admitted exactly when it was admitted
    already, or it occurs among the candidates with no subnet of its zone
    admitted already or standing before it. *)
Lemma azDedup_first_seen (admitted candidates : list ec2.Subnet) (x : ec2.Subnet) :
  x ∈ azDedup admitted candidates <->
  (x ∈ admitted \/
   ((ec2.AvailabilityZone x ∉ map ec2.AvailabilityZone admitted) /\
    exists l1 l2, candidates = l1 ++ x :: l2 /\
                  (ec2.AvailabilityZone x ∉ map ec2.AvailabilityZone l1))).
Proof.
  revert admitted. induction candidates as [|c rest IH]; intros admitted; simpl.
  - split; [by left|]. intros [|(_ & l1 & l2 & Heq & _)]; [done|].
    by destruct l1.
  - destruct (existsb (sharesZone c) admitted) eqn:Hex.
    + apply existsb_sharesZone in Hex. rewrite IH. split.
      * intros [|(Hn & l1 & l2 & -> & Hl1)]; [by left|]. right.
        split; [done|]. exists (c :: l1), l2. split; [done|].
        simpl. apply not_elem_of_cons. split; [congruence|done].
      * intros [|(Hn & l1 & l2 & Heq & Hl1)]; [by left|]. right.
        split; [done|]. destruct l1 as [|c' l1]; simplify_eq/=; [done|].
        apply not_elem_of_cons in Hl1 as [_ Hl1]. by exists l1, l2.
    + assert (ec2.AvailabilityZone c ∉ map ec2.AvailabilityZone admitted) as Hc.
      { intros Hin. apply existsb_sharesZone in Hin. congruence. }
      rewrite IH, map_app, elem_of_app, list_elem_of_singleton. simpl.
      setoid_rewrite elem_of_app. setoid_rewrite list_elem_of_singleton. split.
      * intros [[|Hx]|(Hn & l1 & l2 & -> & Hl1)]; [by left|subst x|].
        -- right. split; [done|]. exists [], rest.
           split; [done|]. simpl. apply not_elem_of_nil.
        -- right. split; [tauto|]. exists (c :: l1), l2.
           split; [done|]. simpl. apply not_elem_of_cons. split; [tauto|done].
      * intros [|(Hn & l1 & l2 & Heq & Hl1)]; [by left; left|].
        destruct l1 as [|c' l1]; simplify_eq/=; [by left; right|].
        apply not_elem_of_cons in Hl1 as [Hne Hl1]. right.
        split; [tauto|]. by exists l1, l2.
Qed.

Lemma scanned_nil (s : State) (useable : list ec2.Subnet) (fv : list string) :
  scanned s useable fv [] = (useable, map ec2.SubnetId useable, fv).
Proof. unfold scanned. simpl. by rewrite app_nil_r. Qed.

Lemma scanned_app (s : State) (useable : list ec2.Subnet)
    (fv ids1 ids2 : list string) :
  scanned s useable fv (ids1 ++ ids2) =
  scanned s (azDedup useable (omap (cachedSubnet (cache s) (now s)) ids1))
          (fv ++ List.filter (isMiss (cache s) (now s) "ClusterSubnets") ids1)
          ids2.
Proof.
  unfold scanned. by rewrite omap_app, azDedup_app, List.filter_app, app_assoc.
Qed.

Lemma scanTag_done (key arn : string) (useable : list ec2.Subnet)
    (fv : list string) (tag : ec2.Tag) (s s' : State)
    (r : list ec2.Subnet * list string * list string) :
  scanTag "ClusterSubnets" key arn (useable, map ec2.SubnetId useable, fv) tag s
    = Done r s' ->
  s' = s /\ r = scanned s useable fv (tagIds key arn tag).
Proof.
  unfold scanTag, tagIds.
  destruct (String.eqb (ec2.Key tag) key).
  2:{ intros [= <- <-]. by rewrite scanned_nil. }
  unfold bind, cacheGet, scanned, cachedSubnet, isMiss. simpl.
  destruct (albcache.Get (cache s) (now s) "ClusterSubnets" (lastPiece arn))
    as [it|]; simpl.
  - destruct (albcache.Value it) as [|cached| |]; simpl; try discriminate.
    rewrite subnetIsUsable_existsb, app_nil_r.
    destruct (existsb (sharesZone cached) useable); simpl; intros [= <- <-];
      by rewrite ?map_app.
  - by intros [= <- <-].
Qed.

(** A loop whose body looks up the candidates [ids x] of each element leaves
    the state as it was and looks up all the candidates in order. *)
Lemma forRange_scanned {A : Type}
    (body : list ec2.Subnet * list string * list string -> A ->
            M (list ec2.Subnet * list string * list string))
    (ids : A -> list string) :
  (forall x useable fv s s' r,
     body (useable, map ec2.SubnetId useable, fv) x s = Done r s' ->
     s' = s /\ r = scanned s useable fv (ids x)) ->
  forall l useable fv s s' r,
    forRange body l (useable, map ec2.SubnetId useable, fv) s = Done r s' ->
    s' = s /\ r = scanned s useable fv (flat_map ids l).
Proof.
  intros Hbody l. induction l as [|x l IH]; intros useable fv s s' r; simpl.
  - intros [= <- <-]. by rewrite scanned_nil.
  - unfold bind at 1.
    destruct (body (useable, map ec2.SubnetId useable, fv) x s) as [r1 s1|]
      eqn:Hx; [|discriminate].
    apply Hbody in Hx as [-> ->]. unfold scanned at 1. intros Hrest.
    apply IH in Hrest as [-> ->]. by rewrite scanned_app.
Qed.

Lemma scanResources_done (key : string) (subnets : list (string * list ec2.Tag))
    (s s' : State) (r : list ec2.Subnet * list string * list string) :
  scanResources "ClusterSubnets" key subnets s = Done r s' ->
  s' = s /\ r = scanned s [] [] (candidateIds key subnets).
Proof.
  unfold scanResources, candidateIds.
  apply (forRange_scanned
           (fun acc '(arn, subnetTags) =>
              forRange (scanTag "ClusterSubnets" key arn) subnetTags acc)
           (fun '(arn, subnetTags) => flat_map (tagIds key arn) subnetTags)
           ltac:(intros [arn subnetTags] useable fv s0 s0' r0;
                 apply (forRange_scanned (scanTag "ClusterSubnets" key arn)
                          (tagIds key arn));
                 intros; by apply scanTag_done)
           subnets [] []).
Qed.

(** The second loop admits the described subnets after those already
    admitted, and makes no remote call. *)
Lemma admitDescribed_spec (described useable : list ec2.Subnet) (s : State) :
  exists s',
    admitDescribed "ClusterSubnets" described
                   (useable, map ec2.SubnetId useable) s =
      Done (azDedup useable described,
            map ec2.SubnetId (azDedup useable described)) s' /\
    calls s' = calls s /\ now s' = now s.
Proof.
  unfold admitDescribed. revert useable s.
  induction described as [|subnet described IH]; intros useable s; simpl.
  - by exists s.
  - unfold bind at 1. unfold admitOne at 1. rewrite subnetIsUsable_existsb.
    destruct (existsb (sharesZone subnet) useable); simpl.
    + apply IH.
    + replace (map ec2.SubnetId useable ++ [ec2.SubnetId subnet])
        with (map ec2.SubnetId (useable ++ [subnet])) by (by rewrite map_app).
      destruct (IH (useable ++ [subnet])
                   {| cache := albcache.Set_ (cache s) (now s) "ClusterSubnets"
                                 (ec2.SubnetId subnet) (VSubnet subnet)
                                 (time.Minute * 60)%Z;
                      now := now s; calls := calls s |})
        as (s' & Hrun & Hcalls & Hnow).
      by exists s'.
Qed.

(** The outcome of [clusterSubnetsFor] once the tag index has answered,
    in terms of the candidates: the cache hits are admitted first, in
    discovery order, then the described subnets in the order of the
    response; the test for fewer than 2 admitted subnets is made after the
    describe query only. *)
Lemma clusterSubnetsFor_run (E : Env) (key : string) (s s' : State)
    (r : list string * option error) (resources : Resources) :
  clusterSubnetsFor E key s = Done r s' ->
  getClusterResources E (calls s) = inr resources ->
  let candidates := candidateIds key (Subnets resources) in
  let hits := omap (cachedSubnet (cache s) (now s)) candidates in
  let misses :=
    List.filter (isMiss (cache s) (now s) "ClusterSubnets") candidates in
  match misses with
  | [] => r = (sortStrings (map ec2.SubnetId (azDedup [] hits)), None)
  | _ :: _ =>
    let filters := [ {| ec2.Name := "subnet-id"; ec2.Values := misses |} ] in
    match describeSubnets E (calls s ++ [CGetClusterResources]) filters with
    | inl err =>
      r = ([], Some (Errorf "Unable to fetch subnets %v: %v"
                       [AFilters filters; AErr err]))
    | inr o =>
      let admitted := azDedup [] (hits ++ o) in
      r = if (Z.of_nat (length admitted) <? 2)%Z then
            ([], Some (Errorf unresolvedFormat
                         [AStr tagNameCluster; AStr tagNameSubnetInternalELB;
                          AStrs (map ec2.SubnetId admitted)]))
          else (sortStrings (map ec2.SubnetId admitted), None)
    end
  end.
Proof.
  intros Hrun Hres. revert Hrun.
  unfold clusterSubnetsFor. unfold bind at 1. unfold GetClusterResources, remote.
  rewrite Hres. unfold bind at 1.
  set (s1 := {| cache := cache s; now := now s;
                calls := calls s ++ [CGetClusterResources] |}).
  destruct (scanResources "ClusterSubnets" key (Subnets resources) s1)
    as [r1 s1'|] eqn:Hscan; [|discriminate].
  apply scanResources_done in Hscan as [-> ->].
  subst s1. unfold scanned. cbn [cache now app].
  set (cands := candidateIds key (Subnets resources)).
  destruct (List.filter (isMiss (cache s) (now s) "ClusterSubnets") cands)
    as [|m misses] eqn:Hmiss.
  - simpl. by intros [= <- _].
  - cbn [length].
    replace (Z.of_nat (S (length misses)) =? 0)%Z with false
      by (symmetry; apply Z.eqb_neq; lia).
    unfold bind at 1. unfold DescribeSubnets, remote. cbn [calls].
    destruct (describeSubnets E (calls s ++ [CGetClusterResources]) _)
      as [err|o]; [by intros [= <- _]|].
    unfold bind at 1.
    match goal with
    | |- context [admitDescribed _ o (?u, _) ?st] =>
      destruct (admitDescribed_spec o u st) as (s2 & -> & _)
    end.
    rewrite <- azDedup_app, length_map.
    destruct (Z.of_nat (length _) <? 2)%Z; by intros [= <- _].
Qed.

(** When every candidate is a cache hit, the call returns what the cache
    gave, however few subnets that is. *)
Lemma clusterSubnetsFor_no_miss (E : Env) (key : string) (s s' : State)
    (r : list string * option error) (resources : Resources) :
  clusterSubnetsFor E key s = Done r s' ->
  getClusterResources E (calls s) = inr resources ->
  List.filter (isMiss (cache s) (now s) "ClusterSubnets")
              (candidateIds key (Subnets resources)) = [] ->
  r = (sortStrings (map ec2.SubnetId
         (azDedup [] (omap (cachedSubnet (cache s) (now s))
                           (candidateIds key (Subnets resources))))), None).
Proof.
  intros Hrun Hres Hmiss.
  pose proof (clusterSubnetsFor_run E key s s' r resources Hrun Hres) as Hout.
  simpl in Hout. by rewrite Hmiss in Hout.
Qed.

(** When the describe query was sent and answered, fewer than 2 admitted
    subnets give the error, which carries the identifiers admitted. *)
Lemma clusterSubnetsFor_too_few (E : Env) (key : string) (s s' : State)
    (r : list string * option error) (resources : Resources)
    (o : list ec2.Subnet) :
  clusterSubnetsFor E key s = Done r s' ->
  getClusterResources E (calls s) = inr resources ->
  let candidates := candidateIds key (Subnets resources) in
  let hits := omap (cachedSubnet (cache s) (now s)) candidates in
  let misses :=
    List.filter (isMiss (cache s) (now s) "ClusterSubnets") candidates in
  misses <> [] ->
  describeSubnets E (calls s ++ [CGetClusterResources])
    [ {| ec2.Name := "subnet-id"; ec2.Values := misses |} ] = inr o ->
  length (azDedup [] (hits ++ o)) < 2 ->
  r = ([], Some (Errorf unresolvedFormat
                   [AStr tagNameCluster; AStr tagNameSubnetInternalELB;
                    AStrs (map ec2.SubnetId (azDedup [] (hits ++ o)))])).
Proof.
  intros Hrun Hres candidates hits misses Hmiss Hdesc Hfew.
  pose proof (clusterSubnetsFor_run E key s s' r resources Hrun Hres) as Hout.
  simpl in Hout. fold candidates in Hout. fold hits in Hout. fold misses in Hout.
  destruct misses as [|m misses']; [done|].
  rewrite Hdesc in Hout.
  destruct (Z.ltb_spec (Z.of_nat (length (azDedup [] (hits ++ o)))) 2); [done|lia].
Qed.

Lemma clusterSubnetsFor_done (E : Env) (key : string) (s s' : State)
    (ids : list string) :
  clusterSubnetsFor E key s = Done (ids, None) s' ->
  exists resources,
    getClusterResources E (calls s) = inr resources /\
    ids = sortStrings (map ec2.SubnetId
            (azDedup []
               (omap (cachedSubnet (cache s) (now s))
                     (candidateIds key (Subnets resources)) ++
                describedSubnets E s
                  (List.filter (isMiss (cache s) (now s) "ClusterSubnets")
                               (candidateIds key (Subnets resources)))))).
Proof.
  intros Hrun.
  destruct (getClusterResources E (calls s)) as [err|resources] eqn:Hres.
  { revert Hrun. unfold clusterSubnetsFor. unfold bind at 1.
    unfold GetClusterResources, remote. by rewrite Hres. }
  exists resources. split; [done|].
  pose proof (clusterSubnetsFor_run E key s s' _ resources Hrun Hres) as Hout.
  simpl in Hout. unfold describedSubnets.
  destruct (List.filter _ _) as [|m misses].
  - rewrite app_nil_r. by injection Hout.
  - destruct (describeSubnets E _ _) as [err|o]; [done|].
    destruct (Z.of_nat (length _) <? 2)%Z; [done|]. by injection Hout.
Qed.

(** C4, as the code has it: a successful [ClusterSubnets] returns the sorted
    identifiers of the admitted subnets, which lie in pairwise distinct
    availability zones. Candidates are considered with the cache hits
    first, in discovery order, followed by the subnets that the describe
    query returns for the misses, in the order of the response; a subnet is
    admitted exactly when no subnet of its zone stands before it in that
    order. *)
Theorem ClusterSubnets_one_per_zone (E : Env) (scheme : string) (s s' : State)
    (ids : list string) :
  ClusterSubnets E scheme s = Done (ids, None) s' ->
  exists (key : string) (resources : Resources),
    schemeTagKey scheme = Some key /\
    getClusterResources E (calls s) = inr resources /\
    let candidates := candidateIds key (Subnets resources) in
    let hits := omap (cachedSubnet (cache s) (now s)) candidates in
    let misses :=
      List.filter (isMiss (cache s) (now s) "ClusterSubnets") candidates in
    let described := describedSubnets E s misses in
    let admitted := azDedup [] (hits ++ described) in
    ids = sortStrings (map ec2.SubnetId admitted) /\
    NoDup (map ec2.AvailabilityZone admitted) /\
    forall x : ec2.Subnet,
      x ∈ admitted <->
      exists l1 l2, hits ++ described = l1 ++ x :: l2 /\
                    (ec2.AvailabilityZone x ∉ map ec2.AvailabilityZone l1).
Proof.
  unfold ClusterSubnets.
  destruct (schemeTagKey scheme) as [key|] eqn:Hkey; [|discriminate].
  intros Hrun. apply clusterSubnetsFor_done in Hrun as (resources & Hres & ->).
  exists key, resources. repeat split; try done.
  - apply azDedup_NoDup. constructor.
  - intros Hin. apply azDedup_first_seen in Hin as [Hin|[_ Hin]]; [|done].
    by apply elem_of_nil in Hin.
  - intros Hin. apply azDedup_first_seen. right. split; [|done].
    simpl. apply not_elem_of_nil.
Qed.

(** ** DeleteSecurityGroupByID: the retry policy *)

Section Retry.

Variable E : Env.
Variable sgID : string.

Lemma afterAttempts_one (s : State) (k : nat) :
  afterAttempts sgID {| cache := cache s; now := now s;
                   calls := calls s ++ [CDeleteSecurityGroup sgID] |} k =
  afterAttempts sgID s (S k).
Proof. unfold afterAttempts. simpl. by rewrite <- app_assoc. Qed.

Lemma afterAttempts_zero (s : State) :
  calls (afterAttempts sgID s 0) = calls s.
Proof. unfold afterAttempts. simpl. by rewrite app_nil_r. Qed.

(** The fuel [Send] starts with is never used up: one more unit changes
    nothing. *)
Lemma sendLoop_fuel (r : request.Retryer) (attempt : M (option ExtError))
    (fuel : nat) (retryCount : Z) (s : State) :
  (request.MaxRetries r <= retryCount + Z.of_nat fuel)%Z ->
  sendLoop r attempt fuel retryCount s =
  sendLoop r attempt (S fuel) retryCount s.
Proof.
  revert retryCount s. induction fuel as [|fuel IH]; intros retryCount s Hle.
  - simpl. unfold bind. destruct (attempt s) as [[err|] s1|]; try done.
    destruct (Z.ltb_spec retryCount (request.MaxRetries r)); [lia|].
    by rewrite andb_false_r.
  - change (sendLoop r attempt (S (S fuel)) retryCount s)
      with (bind attempt (fun e =>
              match e with
              | None => ret None
              | Some err =>
                if request.ShouldRetry r
                     {| request.Error := Some err;
                        request.RetryCount := retryCount |}
                   && (retryCount <? request.MaxRetries r)%Z
                then sendLoop r attempt (S fuel) (retryCount + 1)%Z
                else ret (Some err)
              end) s).
    simpl. unfold bind. destruct (attempt s) as [[err|] s1|]; try done.
    destruct (_ && _); [|done]. apply IH. lia.
Qed.

(** Every run of the loop ends, after at least one attempt and at most
    one more than the fuel. *)
Lemma sendLoop_attempts (r : request.Retryer) (fuel : nat) (retryCount : Z)
    (s : State) :
  exists (e : option ExtError) (k : nat),
    sendLoop r (attemptDelete E sgID) fuel retryCount s =
      Done e (afterAttempts sgID s k) /\
    1 <= k <= S fuel.
Proof.
  revert retryCount s. induction fuel as [|fuel IH]; intros retryCount s;
    simpl; unfold bind, attemptDelete at 1, remote;
    destruct (deleteSecurityGroup E (calls s) sgID) as [err|].
  - exists (Some err), 1. split; [|lia]. by destruct (_ && _).
  - exists None, 1. split; [done|lia].
  - destruct (_ && _).
    + destruct (IH (retryCount + 1)%Z
                   {| cache := cache s; now := now s;
                      calls := calls s ++ [CDeleteSecurityGroup sgID] |})
        as (e & k & -> & Hk).
      exists e, (S k). rewrite afterAttempts_one. split; [done|lia].
    + exists (Some err), 1. split; [done|lia].
  - exists None, 1. split; [done|lia].
Qed.

(** One failed attempt with the dependency code under the wrapped
    retryer: retried while the retry count is below 20. *)
Lemma sendLoop_dependency_step (inner : request.Retryer) (fuel : nat)
    (retryCount : Z) (s : State) (msg : string) :
  deleteSecurityGroup E (calls s) sgID =
    Some (AwsError "DependencyViolation" msg) ->
  sendLoop (asRetryer {| Retryer := inner |}) (attemptDelete E sgID) fuel
           retryCount s =
    if (retryCount <? 20)%Z then
      match fuel with
      | S fuel' =>
        sendLoop (asRetryer {| Retryer := inner |}) (attemptDelete E sgID)
                 fuel'
                 (retryCount + 1)%Z
                 {| cache := cache s; now := now s;
                    calls := calls s ++ [CDeleteSecurityGroup sgID] |}
      | O =>
        Done (Some (AwsError "DependencyViolation" msg))
             {| cache := cache s; now := now s;
                calls := calls s ++ [CDeleteSecurityGroup sgID] |}
      end
    else
      Done (Some (AwsError "DependencyViolation" msg))
           {| cache := cache s; now := now s;
              calls := calls s ++ [CDeleteSecurityGroup sgID] |}.
Proof.
  intros Hfirst.
  destruct fuel; simpl; unfold bind, attemptDelete at 1, remote;
    rewrite Hfirst; simpl; unfold deleteSecurityGroupRetryer_MaxRetries;
    by destruct (retryCount <? 20)%Z.
Qed.

Lemma afterAttempts_S_zero (s : State) :
  {| cache := cache s; now := now s;
     calls := calls s ++ [CDeleteSecurityGroup sgID] |} = afterAttempts sgID s 1.
Proof. done. Qed.

(** Failures with the dependency code followed by a success: every one of
    them is retried as long as the retry count stays below 20. *)
Lemma sendLoop_dependency_then_success (n fuel : nat) (retryCount : Z)
    (s : State) :
  n <= fuel -> (retryCount + Z.of_nat n <= 20)%Z ->
  (forall k, k < n ->
     exists msg, deleteSecurityGroup E (calls (afterAttempts sgID s k)) sgID =
                 Some (AwsError "DependencyViolation" msg)) ->
  deleteSecurityGroup E (calls (afterAttempts sgID s n)) sgID = None ->
  sendLoop (asRetryer {| Retryer := defaultRetryer E |})
           (attemptDelete E sgID) fuel retryCount s =
    Done None (afterAttempts sgID s (S n)).
Proof.
  revert fuel retryCount s.
  induction n as [|n IH]; intros fuel retryCount s Hfuel Hcount Hfail Hok.
  - rewrite afterAttempts_zero in Hok.
    destruct fuel; simpl; unfold bind, attemptDelete at 1, remote;
      by rewrite Hok.
  - destruct fuel as [|fuel]; [lia|].
    destruct (Hfail 0) as [msg Hfirst]; [lia|].
    rewrite afterAttempts_zero in Hfirst.
    rewrite (sendLoop_dependency_step _ _ _ _ msg) by done.
    destruct (Z.ltb_spec retryCount 20); [|lia].
    rewrite IH.
    + by rewrite afterAttempts_one.
    + lia.
    + lia.
    + intros k Hk. rewrite afterAttempts_one. apply Hfail. lia.
    + by rewrite afterAttempts_one.
Qed.

(** Failures with the dependency code on every attempt: the loop gives up
    once the retry count has reached 20. *)
Lemma sendLoop_dependency_exhausted (fuel : nat) (retryCount : Z) (s : State) :
  (retryCount + Z.of_nat fuel = 20)%Z ->
  (forall k, k <= fuel ->
     exists msg, deleteSecurityGroup E (calls (afterAttempts sgID s k)) sgID =
                 Some (AwsError "DependencyViolation" msg)) ->
  exists msg,
    sendLoop (asRetryer {| Retryer := defaultRetryer E |})
             (attemptDelete E sgID) fuel retryCount s =
      Done (Some (AwsError "DependencyViolation" msg))
           (afterAttempts sgID s (S fuel)).
Proof.
  revert retryCount s.
  induction fuel as [|fuel IH]; intros retryCount s Hcount Hfail;
    (destruct (Hfail 0) as [msg Hfirst]; [lia|]);
    rewrite afterAttempts_zero in Hfirst;
    rewrite (sendLoop_dependency_step _ _ _ _ msg) by done.
  - exists msg. by destruct (retryCount <? 20)%Z.
  - destruct (Z.ltb_spec retryCount 20); [|lia].
    destruct (IH (retryCount + 1)%Z
                 {| cache := cache s; now := now s;
                    calls := calls s ++ [CDeleteSecurityGroup sgID] |})
      as (msg' & ->).
    + lia.
    + intros k Hk. rewrite afterAttempts_one. apply Hfail. lia.
    + exists msg'. by rewrite afterAttempts_one.
Qed.

End Retry.

(** How [DeleteSecurityGroupByID] runs the loop. *)
Lemma DeleteSecurityGroupByID_unfold (E : Env) (sgID : string) (s : State) :
  DeleteSecurityGroupByID E sgID s =
  match sendLoop (asRetryer {| Retryer := defaultRetryer E |})
                 (attemptDelete E sgID) 20 0%Z s with
  | Done (Some err) s' => Done (Some (External err)) s'
  | Done None s' => Done None s'
  | Panic why => Panic why
  end.
Proof.
  unfold DeleteSecurityGroupByID, bind, Send.
  change (Z.to_nat (request.MaxRetries (asRetryer {| Retryer := defaultRetryer E |})))
    with 20.
  fold (attemptDelete E sgID).
  by destruct (sendLoop _ _ 20 0%Z s) as [[err|] s'|].
Qed.

(** C2, as the code has it: the retryer given to the deletion request
    answers 20 to [MaxRetries] whatever the failure, retries every failure
    with the code DependencyViolation, and passes every other failure, as
    well as the delay rules, to the retryer of the client. The deletion
    therefore ends after at most 21 attempts (the first one and 20
    retries): up to 20 failures with the dependency code followed by a
    success give a successful call, and 21 such failures in a row give the
    last error back. [afterAttempts sgID s k] is the state [s] with [k]
    deletion requests added to the call log. *)
Theorem DeleteSecurityGroupByID_retry_bound (E : Env) (sgID : string) (s : State) :
  let r := asRetryer {| Retryer := defaultRetryer E |} in
  request.MaxRetries r = 20%Z /\
  request.RetryRules r = request.RetryRules (defaultRetryer E) /\
  (forall (req : request.Request) (msg : string),
     request.Error req = Some (AwsError "DependencyViolation" msg) ->
     request.ShouldRetry r req = true) /\
  (forall req : request.Request,
     (forall msg, request.Error req <> Some (AwsError "DependencyViolation" msg)) ->
     request.ShouldRetry r req = request.ShouldRetry (defaultRetryer E) req) /\
  (exists (e : option error) (k : nat),
     DeleteSecurityGroupByID E sgID s = Done e (afterAttempts sgID s k) /\
     1 <= k <= 21) /\
  (forall n : nat,
     n <= 20 ->
     (forall k, k < n ->
        exists msg, deleteSecurityGroup E (calls (afterAttempts sgID s k)) sgID =
                    Some (AwsError "DependencyViolation" msg)) ->
     deleteSecurityGroup E (calls (afterAttempts sgID s n)) sgID = None ->
     DeleteSecurityGroupByID E sgID s = Done None (afterAttempts sgID s (S n))) /\
  ((forall k, k <= 20 ->
      exists msg, deleteSecurityGroup E (calls (afterAttempts sgID s k)) sgID =
                  Some (AwsError "DependencyViolation" msg)) ->
   exists msg,
     DeleteSecurityGroupByID E sgID s =
       Done (Some (External (AwsError "DependencyViolation" msg)))
            (afterAttempts sgID s 21)).
Proof.
  intros r. split; [done|]. split; [done|]. split; [|split; [|split; [|split]]].
  - intros req msg Herr. subst r. simpl.
    unfold deleteSecurityGroupRetryer_ShouldRetry. by rewrite Herr.
  - intros req Hother. subst r. simpl.
    unfold deleteSecurityGroupRetryer_ShouldRetry.
    destruct (request.Error req) as [[code msg|msg]|] eqn:Herr; try done.
    destruct (String.eqb_spec code "DependencyViolation") as [->|]; [|done].
    by destruct (Hother msg).
  - destruct (sendLoop_attempts E sgID r 20 0%Z s) as (e & k & Hrun & Hk).
    rewrite DeleteSecurityGroupByID_unfold. fold r. rewrite Hrun.
    destruct e as [err|]; eexists _, k; split; try done; lia.
  - intros n Hn Hfail Hok. rewrite DeleteSecurityGroupByID_unfold.
    rewrite (sendLoop_dependency_then_success E sgID n 20 0%Z s); try done; lia.
  - intros Hfail.
    destruct (sendLoop_dependency_exhausted E sgID 20 0%Z s) as (msg & Hrun);
      [lia|done|].
    exists msg. rewrite DeleteSecurityGroupByID_unfold. by rewrite Hrun.
Qed.

(** * The claims on concrete runs *)

Import Scenario.

(** C1, at the failing input. One subnet carries the role tag. The first
    call, with an empty cache, describes it, admits it, stores it and fails
    for want of a second zone, naming the partial set. The second call finds
    that subnet in the cache, has no miss left and returns the single
    identifier with a nil error: the test for fewer than 2 admitted subnets
    is only reached when the describe query was sent. With no candidate at
    all the call succeeds with an empty result. Under the internet-facing
    scheme the error names the role key of the internal scheme. *)
Theorem ClusterSubnets_all_cached_skips_check :
  let E := envOneSubnet tagNameSubnetInternalELB in
  let s1 := stateAfter (ClusterSubnets E "internal") fresh in
  let s2 := stateAfter (ClusterSubnets E "internal") s1 in
  ClusterSubnets E "internal" fresh =
    Done ([], Some (Errorf unresolvedFormat
                      [AStr tagNameCluster; AStr tagNameSubnetInternalELB;
                       AStrs ["subnet-1"]])) s1 /\
  ClusterSubnets E "internal" s1 = Done (["subnet-1"], None) s2 /\
  calls s2 = calls s1 ++ [CGetClusterResources] /\
  ClusterSubnets envNoSubnet "internal" fresh =
    Done ([], None)
         {| cache := ∅; now := 0; calls := [CGetClusterResources] |} /\
  (exists s,
     ClusterSubnets (envOneSubnet tagNameSubnetPublicELB) "internet-facing" fresh =
       Done ([], Some (Errorf unresolvedFormat
                         [AStr tagNameCluster; AStr tagNameSubnetInternalELB;
                          AStrs ["subnet-1"]])) s).
Proof.
  repeat split; try (vm_compute; reflexivity).
  eexists. vm_compute. reflexivity.
Qed.

(** C3, at the failing input. With subnet-a cached and the request for
    subnet-a and subnet-b, [GetSubnets] sends one query, whose name filter
    holds both names, the cached one included; an inventory that honours
    the filter returns subnet-a again, and its identifier is in the result
    twice. [GetSecurityGroups], in the same situation, filters for the miss
    only. *)
Theorem GetSubnets_filter_has_cached_names :
  cacheMisses "EC2.GetSubnets" ["subnet-a"; "subnet-b"] warmNames = ["subnet-b"] /\
  (exists s',
     GetSubnets envNames ["subnet-a"; "subnet-b"] warmNames =
       Done (["subnet-001"; "subnet-001"; "subnet-002"], None) s' /\
     calls s' =
       [CDescribeSubnets
          [ {| ec2.Name := "tag:Name"; ec2.Values := ["subnet-a"; "subnet-b"] |};
            {| ec2.Name := "vpc-id"; ec2.Values := ["vpc-1"] |} ]]) /\
  (exists s',
     GetSecurityGroups envNames ["sg-a"; "sg-b"] warmNames =
       Done (["sg-001"; "sg-002"], None) s' /\
     calls s' =
       [CDescribeSecurityGroups
          [ {| ec2.Name := "tag:Name"; ec2.Values := ["sg-b"] |};
            {| ec2.Name := "vpc-id"; ec2.Values := ["vpc-1"] |} ]]).
Proof.
  split; [vm_compute; reflexivity|].
  split; eexists; vm_compute; split; reflexivity.
Qed.

(** C5, at the failing input. [GetVPCID] and [GetVPC] use the same cache
    name, "EC2.GetVPCID", and differ in the key only: the empty key for the
    former, the id for the latter. After [GetVPCID] has stored the VPC id of
    the instance, [GetVPC] called with the empty id reads that entry and its
    type assertion panics; in the other order [GetVPCID] reads the
    descriptor that [GetVPC] stored and panics. *)
Theorem GetVPC_observes_GetVPCID_entry :
  let s1 := stateAfter (GetVPCID envInstance) fresh in
  let s2 := stateAfter (GetVPC envInstance "") fresh in
  GetVPCID envInstance fresh = Done (Some "vpc-1", None) s1 /\
  albcache.Value <$> albcache.Get (cache s1) (now s1) "EC2.GetVPCID" "" =
    Some (VString "vpc-1") /\
  GetVPC envInstance "" s1 =
    Panic "interface conversion: interface {} is not *ec2.Vpc" /\
  GetVPC envInstance "" fresh = Done (Some {| ec2.VpcId := "" |}, None) s2 /\
  GetVPCID envInstance s2 =
    Panic "interface conversion: interface {} is not *string".
Proof. repeat split; vm_compute; reflexivity. Qed.

(** Counterexample to C4 as stated. The discovery order is subnet-1,
    subnet-2, subnet-3, and subnets 1 and 2 share a zone, so admission in
    discovery order keeps subnet-1 and subnet-3. Subnet 2 is in the cache:
    the code admits it while it scans the resources, before the describe
    query for the misses returns subnet-1, and returns subnet-2 and
    subnet-3. *)
Lemma ClusterSubnets_cache_hit_wins :
  getClusterResources envThreeSubnets (calls warmSubnet2) =
    inr {| Subnets := taggedThree |} /\
  candidateIds tagNameSubnetInternalELB taggedThree = map ec2.SubnetId discovered /\
  sortStrings (map ec2.SubnetId (azDedup [] discovered)) =
    ["subnet-1"; "subnet-3"] /\
  exists s',
    ClusterSubnets envThreeSubnets "internal" warmSubnet2 =
      Done (["subnet-2"; "subnet-3"], None) s'.
Proof.
  repeat split; try (vm_compute; reflexivity).
  eexists. vm_compute. reflexivity.
Qed.

(** C4 on a concrete run: the call of the counterexample, in which the
    cached subnet-2 and the described subnet-3 are admitted. *)
Lemma ClusterSubnets_one_per_zone_witness :
  ClusterSubnets envThreeSubnets "internal" warmSubnet2 =
    Done (["subnet-2"; "subnet-3"], None)
         (stateAfter (ClusterSubnets envThreeSubnets "internal") warmSubnet2) /\
  exists admitted : list ec2.Subnet,
    ["subnet-2"; "subnet-3"] = sortStrings (map ec2.SubnetId admitted) /\
    NoDup (map ec2.AvailabilityZone admitted).
Proof.
  assert (ClusterSubnets envThreeSubnets "internal" warmSubnet2 =
            Done (["subnet-2"; "subnet-3"], None)
                 (stateAfter (ClusterSubnets envThreeSubnets "internal") warmSubnet2))
    as Hrun by (vm_compute; reflexivity).
  split; [exact Hrun|].
  destruct (ClusterSubnets_one_per_zone _ _ _ _ _ Hrun)
    as (key & resources & _ & _ & Hids & Hnd & _).
  eexists. split; [exact Hids | exact Hnd].
Defined.

(** Counterexample to C2 as stated. When the deletion is blocked by a
    dependency 20 times and then goes through, the call makes 21 attempts
    and succeeds; when it stays blocked the 21st attempt is made as well.
    And a failure with another code is not left to the retryer of the
    client unchanged: that retryer alone gives up on throttling after 4
    attempts, the wrapped one after 21. *)
Lemma DeleteSecurityGroupByID_attempt_21 :
  DeleteSecurityGroupByID (envBlockedFor 20) "sg-1" fresh =
    Done None (afterAttempts "sg-1" fresh 21) /\
  DeleteSecurityGroupByID envAlwaysBlocked "sg-1" fresh =
    Done (Some (External dependencyViolation)) (afterAttempts "sg-1" fresh 21) /\
  Send (defaultRetryer envThrottled) (attemptDelete envThrottled "sg-1") fresh =
    Done (Some (AwsError "RequestLimitExceeded" "slow down"))
         (afterAttempts "sg-1" fresh 4) /\
  DeleteSecurityGroupByID envThrottled "sg-1" fresh =
    Done (Some (External (AwsError "RequestLimitExceeded" "slow down")))
         (afterAttempts "sg-1" fresh 21).
Proof. repeat split; vm_compute; reflexivity. Qed.

(** C2 on concrete runs: two blocked attempts and a success, and a
    deletion that stays blocked. *)
Lemma DeleteSecurityGroupByID_retry_bound_witness :
  DeleteSecurityGroupByID (envBlockedFor 2) "sg-1" fresh =
    Done None (afterAttempts "sg-1" fresh 3) /\
  exists msg,
    DeleteSecurityGroupByID envAlwaysBlocked "sg-1" fresh =
      Done (Some (External (AwsError "DependencyViolation" msg)))
           (afterAttempts "sg-1" fresh 21).
Proof.
  split.
  - destruct (DeleteSecurityGroupByID_retry_bound (envBlockedFor 2) "sg-1" fresh)
      as (_ & _ & _ & _ & _ & Hok & _).
    apply (Hok 2).
    + lia.
    + intros k Hk. exists "resource has a dependent object".
      destruct k as [|[|k]]; [reflexivity|reflexivity|lia].
    + reflexivity.
  - destruct (DeleteSecurityGroupByID_retry_bound envAlwaysBlocked "sg-1" fresh)
      as (_ & _ & _ & _ & _ & _ & Hfail).
    apply Hfail. intros k _. by exists "resource has a dependent object".
Defined.

(** C6 on concrete runs: with the override, with a cached id, and through
    the metadata service. *)
Lemma GetVPCID_resolution_order_witness :
  GetVPCID (offline "vpc-1") fresh = Done (Some "vpc-1", None) fresh /\
  GetVPCID envInstance warmVpc = Done (Some "vpc-7", None) warmVpc /\
  exists vpc : string,
    GetVPCID envInstance fresh =
      Done (Some vpc, None)
           {| cache := <[("EC2.GetVPCID", "") :=
                          {| albcache.Value := VString vpc;
                             albcache.expires := (0 + 60 * time.Minute)%Z |}]> ∅;
              now := 0;
              calls := [CGetInstanceIdentityDocument;
                        CDescribeInstances ["i-0123456789"]] |}.
Proof.
  split; [|split].
  - by apply (GetVPCID_resolution_order (offline "vpc-1") fresh).
  - destruct (GetVPCID_resolution_order envInstance warmVpc) as (_ & Hhit & _).
    apply (Hhit eq_refl "vpc-7" 3600%Z); [reflexivity|simpl; lia].
  - destruct (GetVPCID_resolution_order envInstance fresh) as (_ & _ & Hmiss).
    destruct (Hmiss eq_refl eq_refl {| InstanceID := "i-0123456789" |}
                {| ec2.Reservations :=
                     [ {| ec2.Instances :=
                            [ {| ec2.InstanceId := "i-0123456789";
                                 ec2.InstanceVpcId := Some "vpc-1" |} ] |} ] |}
                eq_refl eq_refl eq_refl) as (vpc & _ & Hrun).
    exists vpc. exact Hrun.
Defined.

(** C7 on a concrete run: the scheme external is refused. *)
Lemma ClusterSubnets_scheme_validation_witness :
  ClusterSubnets (offline "vpc-1") "external" fresh =
    Done ([], Some (Errorf "Invalid scheme [%s]" [AStr "external"])) fresh.
Proof.
  destruct (ClusterSubnets_scheme_validation (offline "vpc-1"))
    as (_ & _ & _ & _ & _ & Hother).
  by apply Hother.
Defined.

(** C8 on concrete runs: the response lists i-2 only; i-1 is reported
    unhealthy and not cached, i-2 healthy and cached. *)
Lemma IsNodeHealthy_absent_not_cached_witness :
  IsNodeHealthy envStatus "i-1" fresh =
    Done (false, None)
         {| cache := ∅; now := 0; calls := [CDescribeInstanceStatus ["i-1"]] |} /\
  IsNodeHealthy envStatus "i-2" fresh =
    Done (true, None)
         {| cache := <[("ec2.IsNodeHealthy", "i-2") :=
                        {| albcache.Value := VBool true;
                           albcache.expires := (0 + 5 * time.Minute)%Z |}]> ∅;
            now := 0; calls := [CDescribeInstanceStatus ["i-2"]] |}.
Proof.
  split.
  - destruct (IsNodeHealthy_absent_not_cached envStatus "i-1" fresh
                [ {| ec2.StatusInstanceId := "i-2"; ec2.StateCode := 16 |} ]
                eq_refl eq_refl) as (Habsent & _).
    apply Habsent. by repeat constructor.
  - destruct (IsNodeHealthy_absent_not_cached envStatus "i-2" fresh
                [ {| ec2.StatusInstanceId := "i-2"; ec2.StateCode := 16 |} ]
                eq_refl eq_refl) as (_ & Hpresent).
    apply (Hpresent [] [] {| ec2.StatusInstanceId := "i-2"; ec2.StateCode := 16 |});
      [reflexivity|constructor|reflexivity].
Defined.

(** C10 on concrete runs: subnet-a and sg-a are cached, the describe
    calls fail. *)
Lemma describe_failure_keeps_cache_hits_witness :
  GetSubnets (offline "vpc-1") ["subnet-a"; "subnet-b"] warmNames =
    Done (["subnet-001"],
          Some (Errorf "Unable to fetch subnets %v: %v"
                  [AFilters
                     [ {| ec2.Name := "tag:Name";
                          ec2.Values := ["subnet-a"; "subnet-b"] |};
                       {| ec2.Name := "vpc-id"; ec2.Values := ["vpc-1"] |} ];
                   AErr (PlainError "unreachable")]))
         {| cache := cache warmNames; now := 0;
            calls :=
              [CDescribeSubnets
                 [ {| ec2.Name := "tag:Name";
                      ec2.Values := ["subnet-a"; "subnet-b"] |};
                   {| ec2.Name := "vpc-id"; ec2.Values := ["vpc-1"] |} ]] |} /\
  GetSecurityGroups (offline "vpc-1") ["sg-a"; "sg-b"] warmNames =
    Done (["sg-001"],
          Some (Errorf "Unable to fetch security groups %v: %v"
                  [AFilters
                     [ {| ec2.Name := "tag:Name"; ec2.Values := ["sg-b"] |};
                       {| ec2.Name := "vpc-id"; ec2.Values := ["vpc-1"] |} ];
                   AErr (PlainError "unreachable")]))
         {| cache := cache warmNames; now := 0;
            calls :=
              [CDescribeSecurityGroups
                 [ {| ec2.Name := "tag:Name"; ec2.Values := ["sg-b"] |};
                   {| ec2.Name := "vpc-id"; ec2.Values := ["vpc-1"] |} ]] |}.
Proof.
  split.
  - destruct (describe_failure_keeps_cache_hits (offline "vpc-1")
                ["subnet-a"; "subnet-b"] warmNames warmNames "vpc-1"
                (PlainError "unreachable") eq_refl) as (Hsubnets & _).
    apply Hsubnets.
    + unfold hitsAreStrings.
      constructor; [right; eexists; vm_compute; reflexivity|].
      constructor; [left; vm_compute; reflexivity|]. constructor.
    + vm_compute. discriminate.
    + reflexivity.
  - destruct (describe_failure_keeps_cache_hits (offline "vpc-1")
                ["sg-a"; "sg-b"] warmNames warmNames "vpc-1"
                (PlainError "unreachable") eq_refl) as (_ & Hgroups).
    apply Hgroups.
    + unfold hitsAreStrings.
      constructor; [right; eexists; vm_compute; reflexivity|].
      constructor; [left; vm_compute; reflexivity|]. constructor.
    + vm_compute. discriminate.
    + reflexivity.
Defined.

(** * Further properties *)

(** ** GetVPC *)

(** X1: a miss answered by exactly one descriptor stores it for 60 minutes;
    until then a further call for the same id returns it from the cache,
    with no remote call. *)
Theorem GetVPC_second_call_from_cache (E : Env) (id : string) (s : State)
    (v : ec2.Vpc) :
  albcache.Get (cache s) (now s) "EC2.GetVPCID" id = None ->
  describeVpcs E (calls s) [id] = inr [v] ->
  let s1 := {| cache := albcache.Set_ (cache s) (now s) "EC2.GetVPCID" id
                          (VVpc v) (60 * time.Minute)%Z;
               now := now s;
               calls := calls s ++ [CDescribeVpcs [id]] |} in
  GetVPC E id s = Done (Some v, None) s1 /\
  forall t : Z,
    (t < now s + 60 * time.Minute)%Z ->
    GetVPC E id (atTime s1 t) = Done (Some v, None) (atTime s1 t).
Proof.
  intros Hmiss Hdesc s1. split.
  - unfold GetVPC, bind, cacheGet. rewrite Hmiss.
    unfold DescribeVpcs, remote. by rewrite Hdesc.
  - intros t Ht. unfold GetVPC, bind, cacheGet. cbn [atTime cache now s1].
    by rewrite Get_Set_eq.
Qed.

(** On a miss the describe request is always sent. *)
Lemma GetVPC_miss_queries (E : Env) (id : string) (s : State) :
  albcache.Get (cache s) (now s) "EC2.GetVPCID" id = None ->
  exists r s', GetVPC E id s = Done r s' /\
               calls s' = calls s ++ [CDescribeVpcs [id]].
Proof.
  intros Hmiss. unfold GetVPC, bind, cacheGet. rewrite Hmiss.
  unfold DescribeVpcs, remote.
  destruct (describeVpcs E (calls s) [id]) as [err|vpcs]; [by eexists _, _|].
  destruct (Z.eqb_spec (Z.of_nat (length vpcs)) 1) as [Hlen|_]; simpl;
    [|by eexists _, _].
  destruct vpcs as [|v0 vpcs]; [simpl in Hlen; lia|]. by eexists _, _.
Qed.

(** X2: a miss whose describe call fails, or returns a number of
    descriptors other than 1, gives an error (the error of the call, or one
    that carries the number returned and the id) and writes nothing to the
    cache, so that the next call for the id sends the describe request
    again. *)
Theorem GetVPC_failure_not_cached (E : Env) (id : string) (s : State) :
  albcache.Get (cache s) (now s) "EC2.GetVPCID" id = None ->
  let s1 := {| cache := cache s; now := now s;
               calls := calls s ++ [CDescribeVpcs [id]] |} in
  (forall err, describeVpcs E (calls s) [id] = inl err ->
     GetVPC E id s = Done (None, Some (External err)) s1) /\
  (forall vpcs, describeVpcs E (calls s) [id] = inr vpcs ->
     length vpcs <> 1 ->
     GetVPC E id s =
       Done (None, Some (Errorf "Invalid amount of VPCs %d returned for %s"
                           [AInt (Z.of_nat (length vpcs)); AStr id])) s1) /\
  (exists r s2, GetVPC E id s1 = Done r s2 /\
                calls s2 = calls s ++ [CDescribeVpcs [id]; CDescribeVpcs [id]]).
Proof.
  intros Hmiss s1. split; [|split].
  - intros err Hdesc. unfold GetVPC, bind, cacheGet. rewrite Hmiss.
    unfold DescribeVpcs, remote. by rewrite Hdesc.
  - intros vpcs Hdesc Hlen. unfold GetVPC, bind, cacheGet. rewrite Hmiss.
    unfold DescribeVpcs, remote. rewrite Hdesc.
    destruct (Z.eqb_spec (Z.of_nat (length vpcs)) 1); [lia|done].
  - destruct (GetVPC_miss_queries E id s1 Hmiss) as (r & s2 & Hrun & Hcalls).
    exists r, s2. split; [done|]. rewrite Hcalls. simpl. by rewrite <- app_assoc.
Qed.

(** ** GetVPCID *)

(** On a miss without override the identity document is always asked
    for. *)
Lemma GetVPCID_miss_asks_metadata (E : Env) (s : State) :
  AWS_VPC_ID E = "" ->
  albcache.Get (cache s) (now s) "EC2.GetVPCID" "" = None ->
  exists r s' rest,
    GetVPCID E s = Done r s' /\
    calls s' = calls s ++ CGetInstanceIdentityDocument :: rest.
Proof.
  intros Henv Hmiss. unfold GetVPCID. rewrite Henv. simpl.
  unfold bind, cacheGet. rewrite Hmiss.
  unfold GetInstanceIdentityDocument, remote.
  destruct (getInstanceIdentityDocument E (calls s)) as [err|doc];
    [by eexists _, _, []|].
  unfold DescribeInstances, remote. simpl.
  destruct (describeInstances E _ _) as [err|o].
  { eexists _, _, [_]. split; [done|]. simpl. by rewrite <- app_assoc. }
  destruct (instanceVPCIsValid o) as [err|] eqn:Hvalid.
  { eexists _, _, [_]. split; [done|]. simpl. by rewrite <- app_assoc. }
  destruct (instanceVPCIsValid_ok o Hvalid) as (vpc & -> & _).
  eexists _, _, [_]. split; [done|]. simpl. by rewrite <- app_assoc.
Qed.

(** X3: once the fallback has resolved the VPC id, a call made before 60
    minutes have passed returns it from the cache with no remote call, and
    a call made after that asks the metadata service again. *)
Theorem GetVPCID_cached_for_an_hour (E : Env) (s : State)
    (doc : InstanceIdentityDocument) (o : ec2.DescribeInstancesOutput)
    (vpc : string) :
  AWS_VPC_ID E = "" ->
  albcache.Get (cache s) (now s) "EC2.GetVPCID" "" = None ->
  getInstanceIdentityDocument E (calls s) = inr doc ->
  describeInstances E (calls s ++ [CGetInstanceIdentityDocument])
                    [InstanceID doc] = inr o ->
  instanceVPCIsValid o = None ->
  firstInstanceVpcId o = Some vpc ->
  exists s1,
    GetVPCID E s = Done (Some vpc, None) s1 /\
    (forall t, (t < now s + 60 * time.Minute)%Z ->
       GetVPCID E (atTime s1 t) = Done (Some vpc, None) (atTime s1 t)) /\
    (forall t, (now s + 60 * time.Minute <= t)%Z ->
       exists r s2 rest,
         GetVPCID E (atTime s1 t) = Done r s2 /\
         calls s2 = calls s1 ++ CGetInstanceIdentityDocument :: rest).
Proof.
  intros Henv Hmiss Hdoc Hdesc Hvalid Hvpc.
  eexists. split; [by apply (GetVPCID_fallback E s doc o vpc)|]. split.
  - intros t Ht.
    apply (GetVPCID_cached E _
             {| albcache.Value := VString vpc;
                albcache.expires := (now s + 60 * time.Minute)%Z |} vpc);
      [done| |done].
    cbn [atTime cache now]. by rewrite Get_Set_eq.
  - intros t Ht.
    match goal with
    | |- context [GetVPCID E (atTime ?st t)] =>
      destruct (GetVPCID_miss_asks_metadata E (atTime st t))
        as (r & s2 & rest & Hrun & Hcalls)
    end.
    + done.
    + cbn [atTime cache now]. by rewrite Get_Set_expired.
    + exists r, s2, rest. split; [exact Hrun|exact Hcalls].
Qed.

(** X4: a call of [GetVPCID] that returns an error returns no id and has
    written nothing to the cache. *)
Theorem GetVPCID_error_not_cached (E : Env) (s s' : State)
    (r : option string) (err : error) :
  GetVPCID E s = Done (r, Some err) s' ->
  r = None /\ cache s' = cache s /\ now s' = now s.
Proof.
  unfold GetVPCID.
  destruct (negb (String.eqb (AWS_VPC_ID E) "")); [discriminate|].
  unfold bind, cacheGet.
  destruct (albcache.Get (cache s) (now s) "EC2.GetVPCID" "") as [it|].
  { destruct (albcache.Value it); simpl; discriminate. }
  unfold GetInstanceIdentityDocument, remote.
  destruct (getInstanceIdentityDocument E (calls s)) as [e|doc];
    [by intros [= <- _ <-]|].
  unfold DescribeInstances, remote. simpl.
  destruct (describeInstances E _ _) as [e|o]; [by intros [= <- _ <-]|].
  destruct (instanceVPCIsValid o) as [e|]; [by intros [= <- _ <-]|].
  destruct (firstInstanceVpcId o) as [vpc|]; discriminate.
Qed.

(** ** instanceVPCIsValid and subnetIsUsable *)

(** X5: a describe response passes the validation exactly when its first
    reservation has a first instance whose VPC id is present and not
    empty; further reservations and instances are not looked at. *)
Theorem instanceVPCIsValid_nil_iff (o : ec2.DescribeInstancesOutput) :
  instanceVPCIsValid o = None <->
  exists vpc, firstInstanceVpcId o = Some vpc /\ vpc <> "".
Proof.
  split; [apply instanceVPCIsValid_ok|].
  intros (vpc & Hvpc & Hne). revert Hvpc.
  unfold instanceVPCIsValid, firstInstanceVpcId.
  destruct (ec2.Reservations o) as [|r0 rest]; [discriminate|].
  destruct (Z.ltb_spec (Z.of_nat (length (r0 :: rest))) 1) as [Hlt|_];
    [simpl in Hlt; lia|].
  destruct (ec2.Instances r0) as [|i0 rest']; [discriminate|].
  destruct (Z.ltb_spec (Z.of_nat (length (i0 :: rest'))) 1) as [Hlt|_];
    [simpl in Hlt; lia|].
  intros ->. by destruct (String.eqb_spec vpc "").
Qed.

(** X6: a subnet is usable next to the existing ones exactly when none of
    them lies in its availability zone. *)
Theorem subnetIsUsable_iff (new : ec2.Subnet) (existing : list ec2.Subnet) :
  subnetIsUsable new existing = true <->
  (ec2.AvailabilityZone new ∉ map ec2.AvailabilityZone existing).
Proof.
  rewrite subnetIsUsable_existsb, negb_true_iff.
  rewrite <- existsb_sharesZone. by destruct (existsb _ _).
Qed.

(** ** GetSubnets and GetSecurityGroups *)

(** When no name misses, every name has its cached identifier. *)
Lemma cacheHits_length (cacheName : string) (names : list string) (s : State) :
  hitsAreStrings cacheName names s ->
  cacheMisses cacheName names s = [] ->
  length (cacheHits cacheName names s) = length names.
Proof.
  unfold hitsAreStrings, cacheMisses, cacheHits.
  induction 1 as [|n rest Hn _ IH]; [done|].
  simpl.
  destruct (isMiss (cache s) (now s) cacheName n) eqn:Hmiss; [discriminate|].
  destruct Hn as [Hn|[v Hv]]; [congruence|].
  rewrite Hv. intros Hrest. simpl. f_equal. exact (IH Hrest).
Qed.

(** X7: when every requested name is a cache hit (in particular when no
    name is requested) the cached identifiers are returned, one per name
    and in the order of the request, no describe query is sent and the
    cache is not written. [s1] is the state once the VPC id has been
    resolved. *)
Theorem all_hits_no_query (E : Env) (names : list string) (s s1 : State)
    (vpcID : string) :
  GetVPCID E s = Done (Some vpcID, None) s1 ->
  (hitsAreStrings "EC2.GetSubnets" names s1 ->
   cacheMisses "EC2.GetSubnets" names s1 = [] ->
   GetSubnets E names s = Done (cacheHits "EC2.GetSubnets" names s1, None) s1 /\
   length (cacheHits "EC2.GetSubnets" names s1) = length names) /\
  (hitsAreStrings "EC2.GetSecurityGroups" names s1 ->
   cacheMisses "EC2.GetSecurityGroups" names s1 = [] ->
   GetSecurityGroups E names s =
     Done (cacheHits "EC2.GetSecurityGroups" names s1, None) s1 /\
   length (cacheHits "EC2.GetSecurityGroups" names s1) = length names).
Proof.
  intros Hvpc. split; intros Hok Hmiss; (split; [|by apply cacheHits_length]).
  - unfold GetSubnets. unfold bind at 1. rewrite Hvpc.
    unfold bind at 1. rewrite lookupNames_spec by done. by rewrite Hmiss.
  - unfold GetSecurityGroups. unfold bind at 1. rewrite Hvpc.
    unfold bind at 1. rewrite lookupNames_spec by done. by rewrite Hmiss.
Qed.

(** The loop of [GetSubnets] over the describe response: it appends the
    identifiers of the subnets with a Name tag, writes each of them under
    its name, and touches no other entry. *)
Lemma backfillSubnets_spec (described : list ec2.Subnet) (acc : list string)
    (s : State) :
  exists s',
    forRange
      (fun subnets subnet =>
         match EC2Tags_Get (ec2.Tags subnet) "Name" with
         | Some value =>
           cacheSet "EC2.GetSubnets" value (VString (ec2.SubnetId subnet))
                    GetSubnetsCacheTTL ;;;
           ret (subnets ++ [ec2.SubnetId subnet])
         | None => ret subnets
         end)
      described acc s = Done (acc ++ namedSubnetIds described) s' /\
    calls s' = calls s /\ now s' = now s /\
    (forall k,
       (forall subnet, subnet ∈ described ->
          EC2Tags_Get (ec2.Tags subnet) "Name" = Some k.2 ->
          k.1 <> "EC2.GetSubnets") ->
       cache s' !! k = cache s !! k) /\
    (forall subnet n,
       subnet ∈ described ->
       EC2Tags_Get (ec2.Tags subnet) "Name" = Some n ->
       exists subnet',
         subnet' ∈ described /\
         EC2Tags_Get (ec2.Tags subnet') "Name" = Some n /\
         cache s' !! ("EC2.GetSubnets", n) =
           Some {| albcache.Value := VString (ec2.SubnetId subnet');
                   albcache.expires := (now s + GetSubnetsCacheTTL)%Z |}).
Proof.
  revert acc s. induction described as [|sn described IH]; intros acc s.
  - exists s. simpl. rewrite app_nil_r. repeat split; try done.
    intros subnet n Hin. by apply elem_of_nil in Hin.
  - cbn [forRange]. unfold bind at 1.
    destruct (EC2Tags_Get (ec2.Tags sn) "Name") as [value|] eqn:Hname.
    + unfold bind at 1. unfold cacheSet at 1. unfold ret at 1.
      set (s0 := {| cache := albcache.Set_ (cache s) (now s) "EC2.GetSubnets"
                               value (VString (ec2.SubnetId sn))
                               GetSubnetsCacheTTL;
                    now := now s; calls := calls s |}).
      destruct (IH (acc ++ [ec2.SubnetId sn]) s0)
        as (s' & Hrun & Hcalls & Hnow & Hframe & Hwritten).
      exists s'. split; [|split; [done|split; [done|split]]].
      * rewrite Hrun. unfold namedSubnetIds. simpl. rewrite Hname.
        by rewrite <- app_assoc.
      * intros k Hk. rewrite Hframe.
        -- subst s0. cbn [cache]. unfold albcache.Set_.
           apply lookup_insert_ne. intros Heq. subst k.
           apply (Hk sn); [by left|done|done].
        -- intros subnet Hin. apply Hk. by right.
      * intros subnet n Hin Hn.
        destruct (decide (Exists
                    (fun x => EC2Tags_Get (ec2.Tags x) "Name" = Some n)
                    described)) as [Hex|Hnex].
        -- apply Exists_exists in Hex as (x & Hx & Hxn).
           destruct (Hwritten x n Hx Hxn) as (x' & Hx' & Hx'n & Hlook).
           exists x'. split; [by right|]. split; [done|]. exact Hlook.
        -- apply elem_of_cons in Hin as [->|Hin].
           2:{ destruct Hnex. apply Exists_exists. by exists subnet. }
           exists sn. split; [by left|]. split; [done|].
           rewrite Hframe.
           ++ subst s0. cbn [cache]. unfold albcache.Set_.
              rewrite Hname in Hn. injection Hn as ->.
              by rewrite lookup_insert_eq.
           ++ intros x Hx Hxn. destruct Hnex. apply Exists_exists.
              by exists x.
    + destruct (IH acc s) as (s' & Hrun & Hcalls & Hnow & Hframe & Hwritten).
      exists s'. split; [|split; [done|split; [done|split]]].
      * unfold ret at 1. cbv beta iota. rewrite Hrun.
        unfold namedSubnetIds. simpl. by rewrite Hname.
      * intros k Hk. apply Hframe. intros subnet Hin. apply Hk. by right.
      * intros subnet n Hin Hn. apply elem_of_cons in Hin as [->|Hin];
          [congruence|].
        destruct (Hwritten subnet n Hin Hn) as (x' & Hx' & Hx'n & Hlook).
        exists x'. split; [by right|done].
Qed.

(** The successful run of [GetSubnets] with at least one miss. *)
Lemma GetSubnets_success (E : Env) (names : list string) (s s1 : State)
    (vpcID : string) (described : list ec2.Subnet) :
  GetVPCID E s = Done (Some vpcID, None) s1 ->
  hitsAreStrings "EC2.GetSubnets" names s1 ->
  cacheMisses "EC2.GetSubnets" names s1 <> [] ->
  describeSubnets E (calls s1)
    [ {| ec2.Name := "tag:Name"; ec2.Values := names |};
      {| ec2.Name := "vpc-id"; ec2.Values := [vpcID] |} ] = inr described ->
  exists s',
    GetSubnets E names s =
      Done (cacheHits "EC2.GetSubnets" names s1 ++ namedSubnetIds described,
            None) s' /\
    now s' = now s1 /\
    (forall k,
       (forall subnet, subnet ∈ described ->
          EC2Tags_Get (ec2.Tags subnet) "Name" = Some k.2 ->
          k.1 <> "EC2.GetSubnets") ->
       cache s' !! k = cache s1 !! k) /\
    (forall subnet n,
       subnet ∈ described ->
       EC2Tags_Get (ec2.Tags subnet) "Name" = Some n ->
       exists subnet',
         subnet' ∈ described /\
         EC2Tags_Get (ec2.Tags subnet') "Name" = Some n /\
         cache s' !! ("EC2.GetSubnets", n) =
           Some {| albcache.Value := VString (ec2.SubnetId subnet');
                   albcache.expires := (now s1 + GetSubnetsCacheTTL)%Z |}).
Proof.
  intros Hvpc Hok Hmiss Hdesc. unfold GetSubnets. unfold bind at 1. rewrite Hvpc.
  unfold bind at 1. rewrite lookupNames_spec by done.
  destruct (cacheMisses "EC2.GetSubnets" names s1) as [|q qs]; [done|].
  cbn [length].
  replace (Z.of_nat (S (length qs)) =? 0)%Z with false
    by (symmetry; apply Z.eqb_neq; lia).
  unfold bind at 1. unfold DescribeSubnets, remote. rewrite Hdesc.
  unfold bind at 1.
  match goal with
  | |- context [forRange _ described ?acc ?st] =>
    destruct (backfillSubnets_spec described acc st)
      as (s' & -> & Hcalls & Hnow & Hframe & Hwritten)
  end.
  exists s'. by repeat split.
Qed.

(** X8: a successful [GetSubnets] with at least one miss returns the
    cached identifiers of the names that hit, in the order of the request,
    followed by the identifiers of the described subnets that carry a Name
    tag, in the order of the response; a described subnet without Name tag
    is left out. *)
Theorem GetSubnets_result (E : Env) (names : list string) (s s1 : State)
    (vpcID : string) (described : list ec2.Subnet) :
  GetVPCID E s = Done (Some vpcID, None) s1 ->
  hitsAreStrings "EC2.GetSubnets" names s1 ->
  cacheMisses "EC2.GetSubnets" names s1 <> [] ->
  describeSubnets E (calls s1)
    [ {| ec2.Name := "tag:Name"; ec2.Values := names |};
      {| ec2.Name := "vpc-id"; ec2.Values := [vpcID] |} ] = inr described ->
  exists s',
    GetSubnets E names s =
      Done (cacheHits "EC2.GetSubnets" names s1 ++ namedSubnetIds described,
            None) s' /\
    forall id : string,
      id ∈ namedSubnetIds described <->
      exists subnet, subnet ∈ described /\ ec2.SubnetId subnet = id /\
                     is_Some (EC2Tags_Get (ec2.Tags subnet) "Name").
Proof.
  intros Hvpc Hok Hmiss Hdesc.
  destruct (GetSubnets_success E names s s1 vpcID described)
    as (s' & Hrun & _); try done.
  exists s'. split; [done|]. intros id. unfold namedSubnetIds.
  rewrite list_elem_of_In, in_flat_map. split.
  - intros (subnet & Hin & Hid). exists subnet.
    apply list_elem_of_In in Hin. split; [done|].
    destruct (EC2Tags_Get (ec2.Tags subnet) "Name") as [n|]; [|done].
    destruct Hid as [Hid|[]]. by eauto.
  - intros (subnet & Hin & Hid & [n Hn]). exists subnet.
    split; [by apply list_elem_of_In|]. rewrite Hn, <- Hid. by left.
Qed.

(** X9: after a successful [GetSubnets] with at least one miss, the name of
    every described subnet with a Name tag is a cache hit for the next 60
    minutes, and it resolves to the identifier of a described subnet of
    that name. *)
Theorem GetSubnets_backfills_cache (E : Env) (names : list string)
    (s s1 : State) (vpcID : string) (described : list ec2.Subnet) :
  GetVPCID E s = Done (Some vpcID, None) s1 ->
  hitsAreStrings "EC2.GetSubnets" names s1 ->
  cacheMisses "EC2.GetSubnets" names s1 <> [] ->
  describeSubnets E (calls s1)
    [ {| ec2.Name := "tag:Name"; ec2.Values := names |};
      {| ec2.Name := "vpc-id"; ec2.Values := [vpcID] |} ] = inr described ->
  exists r s',
    GetSubnets E names s = Done r s' /\
    forall subnet n t,
      subnet ∈ described ->
      EC2Tags_Get (ec2.Tags subnet) "Name" = Some n ->
      (t < now s1 + 60 * time.Minute)%Z ->
      exists subnet',
        subnet' ∈ described /\
        EC2Tags_Get (ec2.Tags subnet') "Name" = Some n /\
        cachedString (cache s') t "EC2.GetSubnets" n =
          Some (ec2.SubnetId subnet').
Proof.
  intros Hvpc Hok Hmiss Hdesc.
  destruct (GetSubnets_success E names s s1 vpcID described)
    as (s' & Hrun & Hnow & _ & Hwritten); try done.
  eexists _, s'. split; [exact Hrun|].
  intros subnet n t Hin Hn Ht.
  destruct (Hwritten subnet n Hin Hn) as (x & Hx & Hxn & Hlook).
  exists x. split; [done|]. split; [done|].
  unfold cachedString, albcache.Get. rewrite Hlook. simpl.
  destruct (Z.ltb_spec t (now s1 + GetSubnetsCacheTTL)); [done|].
  unfold GetSubnetsCacheTTL in *. lia.
Qed.

(** The loop of [GetSecurityGroups] over the describe response appends the
    identifier of every group and makes no remote call. *)
Lemma backfillGroups_spec (described : list ec2.SecurityGroup)
    (acc : list string) (s : State) :
  exists s',
    forRange
      (fun sgs sg =>
         cacheSet "EC2.GetSecurityGroups"
                  (default "" (EC2Tags_Get (ec2.GroupTags sg) "Name"))
                  (VString (ec2.GroupId sg)) GetSecurityGroupsCacheTTL ;;;
         ret (sgs ++ [ec2.GroupId sg]))
      described acc s = Done (acc ++ map ec2.GroupId described) s' /\
    calls s' = calls s /\ now s' = now s.
Proof.
  revert acc s. induction described as [|sg described IH]; intros acc s.
  - exists s. simpl. by rewrite app_nil_r.
  - destruct (IH (acc ++ [ec2.GroupId sg])
                 {| cache := albcache.Set_ (cache s) (now s)
                               "EC2.GetSecurityGroups"
                               (default "" (EC2Tags_Get (ec2.GroupTags sg) "Name"))
                               (VString (ec2.GroupId sg))
                               GetSecurityGroupsCacheTTL;
                    now := now s; calls := calls s |})
      as (s' & Hrun & Hcalls & Hnow).
    exists s'. split; [|done].
    rewrite <- app_assoc in Hrun. exact Hrun.
Qed.

(** X10: a successful [GetSecurityGroups] with at least one miss returns
    the cached identifiers of the names that hit followed by the
    identifier of every described group, in the order of the response,
    whether or not the group carries a Name tag. *)
Theorem GetSecurityGroups_result (E : Env) (names : list string)
    (s s1 : State) (vpcID : string) (described : list ec2.SecurityGroup) :
  GetVPCID E s = Done (Some vpcID, None) s1 ->
  hitsAreStrings "EC2.GetSecurityGroups" names s1 ->
  cacheMisses "EC2.GetSecurityGroups" names s1 <> [] ->
  describeSecurityGroups E (calls s1)
    [ {| ec2.Name := "tag:Name";
         ec2.Values := cacheMisses "EC2.GetSecurityGroups" names s1 |};
      {| ec2.Name := "vpc-id"; ec2.Values := [vpcID] |} ] = inr described ->
  exists s',
    GetSecurityGroups E names s =
      Done (cacheHits "EC2.GetSecurityGroups" names s1 ++
            map ec2.GroupId described, None) s'.
Proof.
  intros Hvpc Hok Hmiss Hdesc. unfold GetSecurityGroups. unfold bind at 1.
  rewrite Hvpc. unfold bind at 1. rewrite lookupNames_spec by done.
  revert Hdesc.
  destruct (cacheMisses "EC2.GetSecurityGroups" names s1) as [|q qs]; [done|].
  intros Hdesc. cbn [length].
  replace (Z.of_nat (S (length qs)) =? 0)%Z with false
    by (symmetry; apply Z.eqb_neq; lia).
  unfold bind at 1. unfold DescribeSecurityGroups, remote. rewrite Hdesc.
  unfold bind at 1.
  match goal with
  | |- context [forRange _ described ?acc ?st] =>
    destruct (backfillGroups_spec described acc st) as (s' & -> & _)
  end.
  by exists s'.
Qed.

(** ** IsNodeHealthy *)

(** X11: once a verdict has been stored, calls for the same instance made
    before 5 minutes have passed return that verdict from the cache and
    send no status query. *)
Theorem IsNodeHealthy_verdict_cached (E : Env) (id : string) (s : State)
    (before after : list ec2.InstanceStatus) (st : ec2.InstanceStatus) :
  albcache.Get (cache s) (now s) "ec2.IsNodeHealthy" id = None ->
  describeInstanceStatus E (calls s) [id] = inr (before ++ st :: after) ->
  Forall (fun x => ec2.StatusInstanceId x <> id) before ->
  ec2.StatusInstanceId st = id ->
  exists s1,
    IsNodeHealthy E id s = Done ((ec2.StateCode st =? 16)%Z, None) s1 /\
    forall t, (t < now s + 5 * time.Minute)%Z ->
      IsNodeHealthy E id (atTime s1 t) =
        Done ((ec2.StateCode st =? 16)%Z, None) (atTime s1 t).
Proof.
  intros Hmiss Hresp Hbefore Hid. eexists. split.
  - unfold IsNodeHealthy, bind, cacheGet. rewrite Hmiss.
    unfold DescribeInstanceStatus, remote. rewrite Hresp.
    by rewrite scanStatuses_first.
  - intros t Ht. unfold IsNodeHealthy, bind, cacheGet.
    cbn [atTime cache now]. rewrite Get_Set_eq; [done|].
    unfold IsNodeHealthyCacheTTL. lia.
Qed.

(** X12: on a cache miss, a failed status query gives false together with
    an error that carries the instance id and the error of the query;
    nothing is written to the cache, so that the next call sends the query
    again. *)
Theorem IsNodeHealthy_query_error (E : Env) (id : string) (s : State)
    (err : ExtError) :
  albcache.Get (cache s) (now s) "ec2.IsNodeHealthy" id = None ->
  describeInstanceStatus E (calls s) [id] = inl err ->
  let s1 := {| cache := cache s; now := now s;
               calls := calls s ++ [CDescribeInstanceStatus [id]] |} in
  IsNodeHealthy E id s =
    Done (false, Some (Errorf "Unable to DescribeInstanceStatus on %v: %v"
                         [AStr id; AErr err])) s1 /\
  exists r s2, IsNodeHealthy E id s1 = Done r s2 /\
               calls s2 = calls s ++ [CDescribeInstanceStatus [id];
                                      CDescribeInstanceStatus [id]].
Proof.
  intros Hmiss Hresp s1. split.
  - unfold IsNodeHealthy, bind, cacheGet. rewrite Hmiss.
    unfold DescribeInstanceStatus, remote. by rewrite Hresp.
  - destruct (IsNodeHealthy_miss_queries E id s1 Hmiss)
      as (r & s2 & Hrun & Hcalls).
    exists r, s2. split; [done|]. rewrite Hcalls. simpl. by rewrite <- app_assoc.
Qed.

(** ** ClusterSubnets *)

Lemma azDedup_newlyAdmitted (admitted candidates : list ec2.Subnet) :
  azDedup admitted candidates = admitted ++ newlyAdmitted admitted candidates.
Proof.
  revert admitted. induction candidates as [|c rest IH]; intros admitted; simpl.
  - by rewrite app_nil_r.
  - destruct (existsb (sharesZone c) admitted); [done|].
    by rewrite IH, <- app_assoc.
Qed.

(** The second loop in full: besides the accumulator, the cache holds each
    newly admitted subnet under its identifier and is otherwise as it was;
    a described subnet that is not admitted is not stored. *)
Lemma admitDescribed_cache (described useable : list ec2.Subnet) (s : State) :
  exists s',
    admitDescribed "ClusterSubnets" described
                   (useable, map ec2.SubnetId useable) s =
      Done (azDedup useable described,
            map ec2.SubnetId (azDedup useable described)) s' /\
    calls s' = calls s /\ now s' = now s /\
    (forall k,
       (forall x, x ∈ newlyAdmitted useable described ->
                  k <> ("ClusterSubnets", ec2.SubnetId x)) ->
       cache s' !! k = cache s !! k) /\
    (forall x, x ∈ newlyAdmitted useable described ->
       exists x',
         x' ∈ newlyAdmitted useable described /\
         ec2.SubnetId x' = ec2.SubnetId x /\
         cache s' !! ("ClusterSubnets", ec2.SubnetId x) =
           Some {| albcache.Value := VSubnet x';
                   albcache.expires := (now s + 60 * time.Minute)%Z |}).
Proof.
  unfold admitDescribed. revert useable s.
  induction described as [|c described IH]; intros useable s.
  - exists s. simpl. repeat split; try done.
    intros x Hx. by apply elem_of_nil in Hx.
  - cbn [forRange newlyAdmitted azDedup]. unfold bind at 1.
    unfold admitOne at 1. rewrite subnetIsUsable_existsb.
    destruct (existsb (sharesZone c) useable); cbn [negb].
    + apply IH.
    + unfold bind at 1. unfold cacheSet at 1. unfold ret at 1.
      cbv beta iota.
      replace (map ec2.SubnetId useable ++ [ec2.SubnetId c])
        with (map ec2.SubnetId (useable ++ [c])) by (by rewrite map_app).
      set (s0 := {| cache := albcache.Set_ (cache s) (now s) "ClusterSubnets"
                               (ec2.SubnetId c) (VSubnet c) (time.Minute * 60)%Z;
                    now := now s; calls := calls s |}).
      destruct (IH (useable ++ [c]) s0)
        as (s' & Hrun & Hcalls & Hnow & Hframe & Hwritten).
      exists s'. split; [exact Hrun|]. split; [done|]. split; [done|]. split.
      * intros k Hk. rewrite Hframe.
        -- subst s0. cbn [cache]. unfold albcache.Set_.
           apply lookup_insert_ne. intros Heq. apply (Hk c); [by left|done].
        -- intros x Hx. apply Hk. by right.
      * intros x Hx.
        destruct (decide (Exists (fun y => ec2.SubnetId y = ec2.SubnetId x)
                            (newlyAdmitted (useable ++ [c]) described)))
          as [Hex|Hnex].
        -- apply Exists_exists in Hex as (y & Hy & Hyx).
           destruct (Hwritten y Hy) as (y' & Hy' & Hy'y & Hlook).
           exists y'. split; [by right|]. split; [congruence|].
           rewrite <- Hyx. exact Hlook.
        -- apply elem_of_cons in Hx as [->|Hx].
           2:{ destruct Hnex. apply Exists_exists. by exists x. }
           exists c. split; [by left|]. split; [done|].
           rewrite Hframe.
           ++ subst s0. cbn [cache]. unfold albcache.Set_.
              rewrite lookup_insert_eq. reflexivity.
           ++ intros y Hy Heq. destruct Hnex. apply Exists_exists.
              exists y. split; [done|]. congruence.
Qed.

(** The state [clusterSubnetsFor] ends in once the tag index has
    answered, whatever the result. *)
Lemma clusterSubnetsFor_state (E : Env) (key : string) (s s' : State)
    (r : list string * option error) (resources : Resources) :
  clusterSubnetsFor E key s = Done r s' ->
  getClusterResources E (calls s) = inr resources ->
  let candidates := candidateIds key (Subnets resources) in
  let hits := omap (cachedSubnet (cache s) (now s)) candidates in
  let misses :=
    List.filter (isMiss (cache s) (now s) "ClusterSubnets") candidates in
  now s' = now s /\
  calls s' = calls s ++ clusterCalls misses /\
  match misses with
  | [] => cache s' = cache s
  | _ :: _ =>
    match describeSubnets E (calls s ++ [CGetClusterResources])
            [ {| ec2.Name := "subnet-id"; ec2.Values := misses |} ] with
    | inl _ => cache s' = cache s
    | inr o =>
      (forall k,
         (forall x, x ∈ newlyAdmitted (azDedup [] hits) o ->
                    k <> ("ClusterSubnets", ec2.SubnetId x)) ->
         cache s' !! k = cache s !! k) /\
      (forall x, x ∈ newlyAdmitted (azDedup [] hits) o ->
         exists x',
           x' ∈ newlyAdmitted (azDedup [] hits) o /\
           ec2.SubnetId x' = ec2.SubnetId x /\
           cache s' !! ("ClusterSubnets", ec2.SubnetId x) =
             Some {| albcache.Value := VSubnet x';
                     albcache.expires := (now s + 60 * time.Minute)%Z |})
    end
  end.
Proof.
  intros Hrun Hres. revert Hrun.
  unfold clusterSubnetsFor. unfold bind at 1. unfold GetClusterResources, remote.
  rewrite Hres. unfold bind at 1.
  set (s1 := {| cache := cache s; now := now s;
                calls := calls s ++ [CGetClusterResources] |}).
  destruct (scanResources "ClusterSubnets" key (Subnets resources) s1)
    as [r1 s1'|] eqn:Hscan; [|discriminate].
  apply scanResources_done in Hscan as [-> ->].
  subst s1. unfold scanned. cbn [cache now app].
  set (cands := candidateIds key (Subnets resources)).
  unfold clusterCalls.
  destruct (List.filter (isMiss (cache s) (now s) "ClusterSubnets") cands)
    as [|m misses] eqn:Hmiss.
  - simpl. by intros [= _ <-].
  - cbn [length].
    replace (Z.of_nat (S (length misses)) =? 0)%Z with false
      by (symmetry; apply Z.eqb_neq; lia).
    unfold bind at 1. unfold DescribeSubnets, remote. cbn [calls].
    destruct (describeSubnets E (calls s ++ [CGetClusterResources]) _)
      as [err|o].
    { intros [= _ <-]. cbn [now calls cache]. by rewrite <- app_assoc. }
    unfold bind at 1.
    match goal with
    | |- context [admitDescribed _ o (?u, _) ?st] =>
      destruct (admitDescribed_cache o u st)
        as (s2 & -> & Hcalls & Hnow & Hframe & Hwritten)
    end.
    cbn [now calls cache] in *.
    destruct (Z.of_nat (length _) <? 2)%Z; intros [= _ <-];
      (split; [done|]); (split; [by rewrite Hcalls, <- app_assoc|]);
      by split.
Qed.

(** X13: [ClusterSubnets] never returns identifiers together with an
    error: with an error the list is empty, the subnets found so far are
    dropped. *)
Theorem ClusterSubnets_error_without_ids (E : Env) (scheme : string)
    (s s' : State) (ids : list string) (err : error) :
  ClusterSubnets E scheme s = Done (ids, Some err) s' ->
  ids = [].
Proof.
  unfold ClusterSubnets.
  destruct (schemeTagKey scheme) as [key|]; [|by intros [= <- _]].
  intros Hrun.
  destruct (getClusterResources E (calls s)) as [e|resources] eqn:Hres.
  { revert Hrun. unfold clusterSubnetsFor. unfold bind at 1.
    unfold GetClusterResources, remote. rewrite Hres. by intros [= <- _]. }
  pose proof (clusterSubnetsFor_run E key s s' _ resources Hrun Hres) as Hout.
  simpl in Hout.
  destruct (List.filter _ _) as [|m misses]; [discriminate|].
  destruct (describeSubnets E _ _) as [e|o]; [by injection Hout|].
  destruct (Z.of_nat (length _) <? 2)%Z; [by injection Hout|discriminate].
Qed.

(** X14: when a candidate missed the cache, so that the describe query was
    sent, a successful [ClusterSubnets] returns at least 2 identifiers. *)
Theorem ClusterSubnets_queried_returns_two (E : Env) (scheme key : string)
    (s s' : State) (ids : list string) (resources : Resources) :
  ClusterSubnets E scheme s = Done (ids, None) s' ->
  schemeTagKey scheme = Some key ->
  getClusterResources E (calls s) = inr resources ->
  List.filter (isMiss (cache s) (now s) "ClusterSubnets")
              (candidateIds key (Subnets resources)) <> [] ->
  2 <= length ids.
Proof.
  unfold ClusterSubnets. intros Hrun Hkey Hres Hmiss. rewrite Hkey in Hrun.
  pose proof (clusterSubnetsFor_run E key s s' _ resources Hrun Hres) as Hout.
  simpl in Hout.
  destruct (List.filter _ _) as [|m misses]; [done|].
  destruct (describeSubnets E _ _) as [e|o]; [discriminate|].
  destruct (Z.ltb_spec (Z.of_nat (length (azDedup []
             (omap (cachedSubnet (cache s) (now s))
                   (candidateIds key (Subnets resources)) ++ o)))) 2)
    as [|Hge]; [discriminate|].
  injection Hout as ->. unfold sortStrings.
  rewrite merge_sort_Permutation, length_map. lia.
Qed.

(** X15: a run of [ClusterSubnets] with a valid scheme and an answer of the
    tag index sends one request to the tag index and, when candidates
    missed the cache, one describe query filtered by exactly the missed
    ids, whatever its result; when every candidate hit, or the describe
    query failed, the cache is left as it was. *)
Theorem ClusterSubnets_remote_calls (E : Env) (scheme key : string)
    (s s' : State) (r : list string * option error) (resources : Resources) :
  ClusterSubnets E scheme s = Done r s' ->
  schemeTagKey scheme = Some key ->
  getClusterResources E (calls s) = inr resources ->
  let misses :=
    List.filter (isMiss (cache s) (now s) "ClusterSubnets")
                (candidateIds key (Subnets resources)) in
  calls s' = calls s ++ clusterCalls misses /\
  (misses = [] -> cache s' = cache s) /\
  (forall err,
     describeSubnets E (calls s ++ [CGetClusterResources])
       [ {| ec2.Name := "subnet-id"; ec2.Values := misses |} ] = inl err ->
     cache s' = cache s).
Proof.
  intros Hrun Hkey Hres misses. unfold ClusterSubnets in Hrun.
  rewrite Hkey in Hrun.
  destruct (clusterSubnetsFor_state E key s s' r resources Hrun Hres)
    as (_ & Hcalls & Hcache).
  fold misses in Hcalls, Hcache. split; [done|].
  destruct misses as [|m misses']; split; try done.
  intros err Hdesc. by rewrite Hdesc in Hcache.
Qed.

(** X16: whenever the describe query of [ClusterSubnets] is answered, every
    subnet the call newly admits is stored under its identifier for 60
    minutes, also when the call then fails for want of 2 subnets; no other
    cache entry is written, so a described subnet that was turned down
    stays a miss. *)
Theorem ClusterSubnets_stores_admitted (E : Env) (scheme key : string)
    (s s' : State) (r : list string * option error) (resources : Resources)
    (o : list ec2.Subnet) :
  ClusterSubnets E scheme s = Done r s' ->
  schemeTagKey scheme = Some key ->
  getClusterResources E (calls s) = inr resources ->
  let candidates := candidateIds key (Subnets resources) in
  let hits := omap (cachedSubnet (cache s) (now s)) candidates in
  let misses :=
    List.filter (isMiss (cache s) (now s) "ClusterSubnets") candidates in
  misses <> [] ->
  describeSubnets E (calls s ++ [CGetClusterResources])
    [ {| ec2.Name := "subnet-id"; ec2.Values := misses |} ] = inr o ->
  (forall x t,
     x ∈ newlyAdmitted (azDedup [] hits) o ->
     (t < now s + 60 * time.Minute)%Z ->
     exists x',
       x' ∈ newlyAdmitted (azDedup [] hits) o /\
       ec2.SubnetId x' = ec2.SubnetId x /\
       cachedSubnet (cache s') t (ec2.SubnetId x) = Some x') /\
  (forall k,
     (forall x, x ∈ newlyAdmitted (azDedup [] hits) o ->
                k <> ("ClusterSubnets", ec2.SubnetId x)) ->
     cache s' !! k = cache s !! k).
Proof.
  intros Hrun Hkey Hres candidates hits misses Hmiss Hdesc.
  unfold ClusterSubnets in Hrun. rewrite Hkey in Hrun.
  destruct (clusterSubnetsFor_state E key s s' r resources Hrun Hres)
    as (_ & _ & Hcache).
  fold candidates in Hcache. fold hits in Hcache. fold misses in Hcache.
  destruct misses as [|m misses']; [done|]. rewrite Hdesc in Hcache.
  destruct Hcache as [Hframe Hwritten]. split; [|done].
  intros x t Hx Ht. destruct (Hwritten x Hx) as (x' & Hx' & Hid & Hlook).
  exists x'. split; [done|]. split; [done|].
  unfold cachedSubnet, albcache.Get. rewrite Hlook. simpl.
  by destruct (Z.ltb_spec t (now s + 60 * time.Minute)); [|lia].
Qed.

(** ** The subnet id of an ARN *)

Lemma splitSlash_not_nil (s : string) : splitSlash s <> [].
Proof.
  destruct s as [|c s]; simpl; [done|].
  destruct (Ascii.eqb c "/"); [done|]. by destruct (splitSlash s).
Qed.

Lemma splitSlash_no_slash (s : string) :
  ~ In "/"%char (String.list_ascii_of_string s) -> splitSlash s = [s].
Proof.
  induction s as [|c s IH]; simpl; [done|]. intros Hno.
  destruct (Ascii.eqb_spec c "/") as [->|_]; [by destruct Hno; left|].
  rewrite IH; [done|]. intros Hin. apply Hno. by right.
Qed.

(** Splitting around a slash: the pieces before it, then the pieces after
    it. *)
Lemma splitSlash_app (prefix rest : string) :
  splitSlash (prefix +:+ String "/" rest) = splitSlash prefix ++ splitSlash rest.
Proof.
  induction prefix as [|c prefix IH]; simpl; [done|].
  destruct (Ascii.eqb c "/"); [by rewrite IH|].
  rewrite IH. pose proof (splitSlash_not_nil prefix).
  by destruct (splitSlash prefix).
Qed.

(** X17: the candidate id that [ClusterSubnets] takes from a subnet ARN is
    what follows its last slash: for an ARN that ends in a slash and an id
    without slash it is that id, and an ARN without any slash is its own
    id. *)
Theorem lastPiece_after_last_slash (prefix id : string) :
  ~ In "/"%char (String.list_ascii_of_string id) ->
  lastPiece (prefix +:+ String "/" id) = id /\ lastPiece id = id.
Proof.
  intros Hno. unfold lastPiece. rewrite splitSlash_app.
  rewrite (splitSlash_no_slash id Hno). split; [|done].
  by rewrite last_last.
Qed.

(** ** The uncached lookups *)

Section PagedProperties.

Variable securityGroupPages :
  paged.DescribeSecurityGroupsInput -> paged.Pages (list ec2.SecurityGroup).
Variable instancePages :
  paged.DescribeInstancesInput -> paged.Pages ec2.DescribeInstancesOutput.

(** Appending page after page gives the pages in order. *)
Lemma fold_left_append {A B : Type} (f : A -> list B) (l : list A)
    (init : list B) :
  fold_left (fun acc x => acc ++ f x) l init = init ++ flat_map f l.
Proof.
  revert init. induction l as [|x l IH]; intros init; simpl.
  - by rewrite app_nil_r.
  - by rewrite IH, <- app_assoc.
Qed.

Lemma head_flat_map_None {A B : Type} (f : A -> list B) (l : list A) :
  head (flat_map f l) = None <-> Forall (fun x => f x = []) l.
Proof.
  induction l as [|x l IH]; simpl; [by split; [constructor|]|].
  destruct (f x) as [|y ys] eqn:Hx; simpl.
  - rewrite IH. split; [by constructor|]. by inversion 1.
  - split; [done|]. inversion 1. congruence.
Qed.

(** X18: the single-group lookups return the first group of the first page
    that has one; they return no group and no error exactly when the paging
    succeeded and every delivered page was empty; and when the paging
    failed they return the error and no group, whatever pages had been
    delivered before. *)
Theorem security_group_lookup_result (sgID vpcID sgName : string) :
  let byID := securityGroupPages
                {| paged.GroupIds := [sgID]; paged.Filters := [] |} in
  let byName :=
    securityGroupPages
      {| paged.GroupIds := [];
         paged.Filters :=
           [ {| ec2.Name := "vpc-id"; ec2.Values := [vpcID] |};
             {| ec2.Name := "group-name"; ec2.Values := [sgName] |} ] |} in
  let outcome (p : paged.Pages (list ec2.SecurityGroup)) :=
    match paged.failure p with
    | Some err => (None, Some (External err))
    | None => (head (flat_map id (paged.delivered p)), None)
    end in
  paged.GetSecurityGroupByID securityGroupPages sgID = outcome byID /\
  paged.GetSecurityGroupByName securityGroupPages vpcID sgName = outcome byName /\
  (paged.GetSecurityGroupByID securityGroupPages sgID = (None, None) <->
   paged.failure byID = None /\ Forall (fun page => page = []) (paged.delivered byID)) /\
  (paged.GetSecurityGroupByName securityGroupPages vpcID sgName = (None, None) <->
   paged.failure byName = None /\
   Forall (fun page => page = []) (paged.delivered byName)).
Proof.
  intros byID byName outcome.
  assert (paged.GetSecurityGroupByID securityGroupPages sgID = outcome byID)
    as HbyID.
  { unfold paged.GetSecurityGroupByID, paged.describeSecurityGroupsHelper, outcome.
    fold byID. rewrite (fold_left_append id). simpl.
    destruct (paged.failure byID); [done|].
    by destruct (flat_map id (paged.delivered byID)). }
  assert (paged.GetSecurityGroupByName securityGroupPages vpcID sgName =
            outcome byName) as HbyName.
  { unfold paged.GetSecurityGroupByName, paged.describeSecurityGroupsHelper,
      outcome.
    fold byName. rewrite (fold_left_append id). simpl.
    destruct (paged.failure byName); [done|].
    by destruct (flat_map id (paged.delivered byName)). }
  split; [done|]. split; [done|].
  rewrite HbyID, HbyName. unfold outcome.
  split.
  - destruct (paged.failure byID).
    + split; [done|]. by intros [? _].
    + rewrite <- (head_flat_map_None id). split.
      * by intros [= ->].
      * by intros [_ ->].
  - destruct (paged.failure byName).
    + split; [done|]. by intros [? _].
    + rewrite <- (head_flat_map_None id). split.
      * by intros [= ->].
      * by intros [_ ->].
Qed.

(** X19: [GetInstancesByID] returns the instances of every reservation of
    every delivered page, in the order of delivery, when the paging
    succeeded, and no instance with the error when it failed, whatever
    pages had been delivered before. *)
Theorem GetInstancesByID_result (instanceIDs : list string) :
  let p := instancePages {| paged.InstanceIds := instanceIDs |} in
  paged.GetInstancesByID instancePages instanceIDs =
    match paged.failure p with
    | Some err => ([], Some (External err))
    | None =>
      (flat_map ec2.Instances (flat_map ec2.Reservations (paged.delivered p)),
       None)
    end.
Proof.
  intros p. unfold paged.GetInstancesByID, paged.describeInstancesHelper.
  fold p. destruct (paged.failure p); [done|].
  by rewrite !fold_left_append.
Qed.

End PagedProperties.

(** ** DeleteSecurityGroupByID: a single attempt *)


(** ** GetVPCID and GetVPC side by side *)

(** What a run of [GetVPC] may change: the clock not at all, the cache under
    its own key only. *)
Lemma GetVPC_frame (E : Env) (id : string) (s s' : State)
    (r : option ec2.Vpc * option error) :
  GetVPC E id s = Done r s' ->
  now s' = now s /\
  forall k, k <> ("EC2.GetVPCID", id) -> cache s' !! k = cache s !! k.
Proof.
  unfold GetVPC, bind, cacheGet.
  destruct (albcache.Get (cache s) (now s) "EC2.GetVPCID" id) as [it|].
  { destruct (albcache.Value it); simpl; try discriminate. by intros [= _ <-]. }
  unfold DescribeVpcs, remote.
  destruct (describeVpcs E (calls s) [id]) as [err|vpcs]; [by intros [= _ <-]|].
  destruct (negb _); [by intros [= _ <-]|].
  destruct vpcs as [|v0 vpcs]; [discriminate|].
  intros [= _ <-]. split; [done|]. intros k Hk. cbn [cache].
  unfold albcache.Set_. by rewrite lookup_insert_ne.
Qed.

(** What a run of [GetVPCID] may change: the clock not at all, the cache
    under the empty key of its namespace only. *)
Lemma GetVPCID_frame (E : Env) (s s' : State)
    (r : option string * option error) :
  GetVPCID E s = Done r s' ->
  now s' = now s /\
  forall k, k <> ("EC2.GetVPCID", "") -> cache s' !! k = cache s !! k.
Proof.
  unfold GetVPCID.
  destruct (negb (String.eqb (AWS_VPC_ID E) "")); [by intros [= _ <-]|].
  unfold bind, cacheGet.
  destruct (albcache.Get (cache s) (now s) "EC2.GetVPCID" "") as [it|].
  { destruct (albcache.Value it); simpl; try discriminate. by intros [= _ <-]. }
  unfold GetInstanceIdentityDocument, remote.
  destruct (getInstanceIdentityDocument E (calls s)) as [e|doc];
    [by intros [= _ <-]|].
  unfold DescribeInstances, remote. simpl.
  destruct (describeInstances E _ _) as [e|o]; [by intros [= _ <-]|].
  destruct (instanceVPCIsValid o) as [e|]; [by intros [= _ <-]|].
  destruct (firstInstanceVpcId o) as [vpc|]; [|discriminate].
  intros [= _ <-]. split; [done|]. intros k Hk. cbn [cache].
  unfold albcache.Set_. by rewrite lookup_insert_ne.
Qed.

(** X21: [GetVPCID] and [GetVPC] share the cache name "EC2.GetVPCID" but,
    for an id that is not empty, not the key: a cached VPC id is still
    returned by [GetVPCID] after any run of [GetVPC] for such an id, and a
    cached descriptor of such an id is still returned by [GetVPC] after any
    run of [GetVPCID]. *)
Theorem GetVPC_nonempty_id_keeps_apart (E : Env) (id : string) (s s1 : State) :
  id <> "" ->
  (forall r it vpc,
     AWS_VPC_ID E = "" ->
     albcache.Get (cache s) (now s) "EC2.GetVPCID" "" = Some it ->
     albcache.Value it = VString vpc ->
     GetVPC E id s = Done r s1 ->
     GetVPCID E s1 = Done (Some vpc, None) s1) /\
  (forall r it v,
     albcache.Get (cache s) (now s) "EC2.GetVPCID" id = Some it ->
     albcache.Value it = VVpc v ->
     GetVPCID E s = Done r s1 ->
     GetVPC E id s1 = Done (Some v, None) s1).
Proof.
  intros Hid. split.
  - intros r it vpc Henv Hget Hval Hrun.
    apply GetVPC_frame in Hrun as [Hnow Hframe].
    apply (GetVPCID_cached E s1 it vpc); [done| |done].
    unfold albcache.Get in *. rewrite Hnow, Hframe; [done|]. congruence.
  - intros r it v Hget Hval Hrun.
    apply GetVPCID_frame in Hrun as [Hnow Hframe].
    unfold GetVPC, bind, cacheGet. unfold albcache.Get in *.
    rewrite Hnow, Hframe by congruence.
    destruct (cache s !! ("EC2.GetVPCID", id)) as [it'|]; [|done].
    destruct (now s <? albcache.expires it')%Z; [|done].
    injection Hget as ->. by rewrite Hval.
Qed.

(** * The further properties on concrete runs *)

(** X1 on a concrete run: the descriptor of vpc-1, asked for twice. *)
Lemma GetVPC_second_call_from_cache_witness :
  let s1 := stateAfter (GetVPC envInstance "vpc-1") fresh in
  GetVPC envInstance "vpc-1" (atTime s1 1000) =
    Done (Some {| ec2.VpcId := "vpc-1" |}, None) (atTime s1 1000).
Proof.
  destruct (GetVPC_second_call_from_cache envInstance "vpc-1" fresh
              {| ec2.VpcId := "vpc-1" |} eq_refl eq_refl) as [_ Hagain].
  apply (Hagain 1000%Z). reflexivity.
Defined.

(** X2 on concrete runs: a describe call that fails, and one that returns
    no descriptor. *)
Lemma GetVPC_failure_not_cached_witness :
  GetVPC (offline "") "vpc-1" fresh =
    Done (None, Some (External (PlainError "unreachable")))
         {| cache := ∅; now := 0; calls := [CDescribeVpcs ["vpc-1"]] |} /\
  GetVPC (withVpcs (offline "") (fun _ => [])) "vpc-1" fresh =
    Done (None, Some (Errorf "Invalid amount of VPCs %d returned for %s"
                        [AInt 0; AStr "vpc-1"]))
         {| cache := ∅; now := 0; calls := [CDescribeVpcs ["vpc-1"]] |}.
Proof.
  split.
  - destruct (GetVPC_failure_not_cached (offline "") "vpc-1" fresh eq_refl)
      as (Hfail & _ & _).
    apply (Hfail (PlainError "unreachable")). reflexivity.
  - destruct (GetVPC_failure_not_cached (withVpcs (offline "") (fun _ => []))
                "vpc-1" fresh eq_refl) as (_ & Hcount & _).
    apply (Hcount []); [reflexivity|simpl; lia].
Defined.

(** X3 on a concrete run: the VPC id of the instance, asked for again 5
    nanoseconds later. *)
Lemma GetVPCID_cached_for_an_hour_witness :
  exists s1,
    GetVPCID envInstance fresh = Done (Some "vpc-1", None) s1 /\
    GetVPCID envInstance (atTime s1 5) = Done (Some "vpc-1", None) (atTime s1 5).
Proof.
  destruct (GetVPCID_cached_for_an_hour envInstance fresh
              {| InstanceID := "i-0123456789" |}
              {| ec2.Reservations :=
                   [ {| ec2.Instances :=
                          [ {| ec2.InstanceId := "i-0123456789";
                               ec2.InstanceVpcId := Some "vpc-1" |} ] |} ] |}
              "vpc-1" eq_refl eq_refl eq_refl eq_refl eq_refl eq_refl)
    as (s1 & Hrun & Hhit & _).
  exists s1. split; [exact Hrun|]. apply Hhit. reflexivity.
Defined.

(** X4 on a concrete run: the metadata service is out of reach. *)
Lemma GetVPCID_error_not_cached_witness :
  let s' := stateAfter (GetVPCID (offline "")) fresh in
  cache s' = cache fresh /\ now s' = now fresh.
Proof.
  intros s'.
  destruct (GetVPCID_error_not_cached (offline "") fresh s' None
              (External (PlainError "unreachable")) eq_refl)
    as (_ & Hcache & Hnow).
  by split.
Defined.

(** X7 on a concrete run: subnet-a is cached and is all that is asked
    for. *)
Lemma all_hits_no_query_witness :
  GetSubnets envNames ["subnet-a"] warmNames =
    Done (cacheHits "EC2.GetSubnets" ["subnet-a"] warmNames, None) warmNames.
Proof.
  destruct (all_hits_no_query envNames ["subnet-a"] warmNames warmNames "vpc-1"
              eq_refl) as [Hsubnets _].
  apply Hsubnets.
  - constructor; [right; eexists; vm_compute; reflexivity|constructor].
  - vm_compute. reflexivity.
Defined.

(** X8 on a concrete run: subnet-a cached, subnet-b described. *)
Lemma GetSubnets_result_witness :
  exists s',
    GetSubnets envNames ["subnet-a"; "subnet-b"] warmNames =
      Done (cacheHits "EC2.GetSubnets" ["subnet-a"; "subnet-b"] warmNames ++
            namedSubnetIds [ namedSubnet "subnet-001" "us-west-2a" "subnet-a";
                             namedSubnet "subnet-002" "us-west-2b" "subnet-b" ],
            None) s'.
Proof.
  destruct (GetSubnets_result envNames ["subnet-a"; "subnet-b"] warmNames
              warmNames "vpc-1"
              [ namedSubnet "subnet-001" "us-west-2a" "subnet-a";
                namedSubnet "subnet-002" "us-west-2b" "subnet-b" ] eq_refl)
    as (s' & Hrun & _).
  - constructor; [right; eexists; vm_compute; reflexivity|].
    constructor; [left; vm_compute; reflexivity|constructor].
  - vm_compute. discriminate.
  - reflexivity.
  - exists s'. exact Hrun.
Defined.

(** X9 on a concrete run: after the call subnet-b is a cache hit. *)
Lemma GetSubnets_backfills_cache_witness :
  exists r s' subnet,
    GetSubnets envNames ["subnet-a"; "subnet-b"] warmNames = Done r s' /\
    cachedString (cache s') 10 "EC2.GetSubnets" "subnet-b" =
      Some (ec2.SubnetId subnet).
Proof.
  destruct (GetSubnets_backfills_cache envNames ["subnet-a"; "subnet-b"]
              warmNames warmNames "vpc-1"
              [ namedSubnet "subnet-001" "us-west-2a" "subnet-a";
                namedSubnet "subnet-002" "us-west-2b" "subnet-b" ] eq_refl)
    as (r & s' & Hrun & Hhit).
  - constructor; [right; eexists; vm_compute; reflexivity|].
    constructor; [left; vm_compute; reflexivity|constructor].
  - vm_compute. discriminate.
  - reflexivity.
  - destruct (Hhit (namedSubnet "subnet-002" "us-west-2b" "subnet-b")
                "subnet-b" 10%Z) as (subnet & _ & _ & Hlook).
    + right. left.
    + reflexivity.
    + reflexivity.
    + exists r, s', subnet. split; [exact Hrun|exact Hlook].
Defined.

(** X10 on a concrete run: sg-a cached, sg-b described. *)
Lemma GetSecurityGroups_result_witness :
  exists s',
    GetSecurityGroups envNames ["sg-a"; "sg-b"] warmNames =
      Done (cacheHits "EC2.GetSecurityGroups" ["sg-a"; "sg-b"] warmNames ++
            map ec2.GroupId [namedGroup "sg-002" "sg-b"], None) s'.
Proof.
  apply (GetSecurityGroups_result envNames ["sg-a"; "sg-b"] warmNames warmNames
           "vpc-1" [namedGroup "sg-002" "sg-b"] eq_refl).
  - constructor; [right; eexists; vm_compute; reflexivity|].
    constructor; [left; vm_compute; reflexivity|constructor].
  - vm_compute. discriminate.
  - reflexivity.
Defined.

(** X11 on a concrete run: i-2 is running; asked again 7 nanoseconds
    later. *)
Lemma IsNodeHealthy_verdict_cached_witness :
  exists s1,
    IsNodeHealthy envStatus "i-2" fresh = Done (true, None) s1 /\
    IsNodeHealthy envStatus "i-2" (atTime s1 7) = Done (true, None) (atTime s1 7).
Proof.
  destruct (IsNodeHealthy_verdict_cached envStatus "i-2" fresh [] []
              {| ec2.StatusInstanceId := "i-2"; ec2.StateCode := 16 |}
              eq_refl eq_refl (Forall_nil_2 _) eq_refl)
    as (s1 & Hrun & Hhit).
  exists s1. split; [exact Hrun|]. apply Hhit. reflexivity.
Defined.

(** X12 on a concrete run: the status query is out of reach. *)
Lemma IsNodeHealthy_query_error_witness :
  IsNodeHealthy (offline "vpc-1") "i-1" fresh =
    Done (false, Some (Errorf "Unable to DescribeInstanceStatus on %v: %v"
                         [AStr "i-1"; AErr (PlainError "unreachable")]))
         {| cache := ∅; now := 0; calls := [CDescribeInstanceStatus ["i-1"]] |}.
Proof.
  destruct (IsNodeHealthy_query_error (offline "vpc-1") "i-1" fresh
              (PlainError "unreachable") eq_refl eq_refl) as [Hrun _].
  exact Hrun.
Defined.

(** X13 on a concrete run: the tag index is out of reach. *)
Lemma ClusterSubnets_error_without_ids_witness :
  exists ids err s',
    ClusterSubnets (offline "vpc-1") "internal" fresh = Done (ids, Some err) s' /\
    ids = [].
Proof.
  exists [], (Errorf "Failed to get AWS tags. Error: %s"
                [AErr (PlainError "unreachable")]),
         (stateAfter (ClusterSubnets (offline "vpc-1") "internal") fresh).
  assert (ClusterSubnets (offline "vpc-1") "internal" fresh =
            Done ([], Some (Errorf "Failed to get AWS tags. Error: %s"
                              [AErr (PlainError "unreachable")]))
                 (stateAfter (ClusterSubnets (offline "vpc-1") "internal") fresh))
    as Hrun by reflexivity.
  split; [exact Hrun|].
  exact (ClusterSubnets_error_without_ids _ _ _ _ _ _ Hrun).
Defined.

(** X14 on a concrete run: the three tagged subnets with subnet-2
    cached. *)
Lemma ClusterSubnets_queried_returns_two_witness :
  exists ids s',
    ClusterSubnets envThreeSubnets "internal" warmSubnet2 = Done (ids, None) s' /\
    2 <= length ids.
Proof.
  assert (ClusterSubnets envThreeSubnets "internal" warmSubnet2 =
            Done (["subnet-2"; "subnet-3"], None)
                 (stateAfter (ClusterSubnets envThreeSubnets "internal") warmSubnet2))
    as Hrun by (vm_compute; reflexivity).
  eexists _, _. split; [exact Hrun|].
  apply (ClusterSubnets_queried_returns_two envThreeSubnets "internal"
           tagNameSubnetInternalELB warmSubnet2 _ _ {| Subnets := taggedThree |}
           Hrun).
  - reflexivity.
  - reflexivity.
  - vm_compute. discriminate.
Defined.

(** X15 on a concrete run: the same call sends two requests. *)
Lemma ClusterSubnets_remote_calls_witness :
  calls (stateAfter (ClusterSubnets envThreeSubnets "internal") warmSubnet2) =
    calls warmSubnet2 ++
    clusterCalls
      (List.filter (isMiss (cache warmSubnet2) (now warmSubnet2) "ClusterSubnets")
                   (candidateIds tagNameSubnetInternalELB taggedThree)).
Proof.
  apply (ClusterSubnets_remote_calls envThreeSubnets "internal"
           tagNameSubnetInternalELB warmSubnet2
           (stateAfter (ClusterSubnets envThreeSubnets "internal") warmSubnet2)
           (["subnet-2"; "subnet-3"], None) {| Subnets := taggedThree |}).
  - vm_compute. reflexivity.
  - reflexivity.
  - reflexivity.
Defined.

(** X16 on a concrete run: the single tagged subnet is stored by the call
    that fails for want of a second one. *)
Lemma ClusterSubnets_stores_admitted_witness :
  let E := envOneSubnet tagNameSubnetInternalELB in
  let s' := stateAfter (ClusterSubnets E "internal") fresh in
  exists x,
    ec2.SubnetId x = "subnet-1" /\
    cachedSubnet (cache s') 10 "subnet-1" = Some x.
Proof.
  intros E s'.
  destruct (ClusterSubnets_stores_admitted E "internal" tagNameSubnetInternalELB
              fresh s'
              ([], Some (Errorf unresolvedFormat
                           [AStr tagNameCluster; AStr tagNameSubnetInternalELB;
                            AStrs ["subnet-1"]]))
              {| Subnets :=
                   [ ("arn:aws:ec2:us-west-2:000000000000:subnet/subnet-1",
                      roleTags tagNameSubnetInternalELB) ] |}
              [ zoneSubnet "subnet-1" "us-west-2a" ])
    as [Hstored _].
  - vm_compute. reflexivity.
  - reflexivity.
  - reflexivity.
  - vm_compute. discriminate.
  - reflexivity.
  - destruct (Hstored (zoneSubnet "subnet-1" "us-west-2a") 10%Z)
      as (x & _ & Hid & Hlook).
    + vm_compute. left.
    + reflexivity.
    + exists x. split; [exact Hid|exact Hlook].
Defined.

(** X17 on a concrete ARN. *)
Lemma lastPiece_after_last_slash_witness :
  lastPiece "arn:aws:ec2:us-west-2:000000000000:subnet/subnet-1" = "subnet-1".
Proof.
  apply (lastPiece_after_last_slash
           "arn:aws:ec2:us-west-2:000000000000:subnet" "subnet-1").
  simpl. intros Hin.
  repeat (destruct Hin as [Hin|Hin]; [discriminate Hin|]). exact Hin.
Defined.


(** X21 on a concrete run: a cached VPC id survives the lookup of the
    descriptor of vpc-1. *)
Lemma GetVPC_nonempty_id_keeps_apart_witness :
  let s1 := stateAfter (GetVPC envInstance "vpc-1") warmVpc in
  GetVPCID envInstance s1 = Done (Some "vpc-7", None) s1.
Proof.
  intros s1.
  destruct (GetVPC_nonempty_id_keeps_apart envInstance "vpc-1" warmVpc s1)
    as [Hkeeps _]; [discriminate|].
  apply (Hkeeps (Some {| ec2.VpcId := "vpc-1" |}, None)
           {| albcache.Value := VString "vpc-7"; albcache.expires := 3600 |}
           "vpc-7"); reflexivity.
Defined.
